(** * Retrieval core of the all-in-one chatbot: a shallow embedding

    Source files embedded here (all under [backend/rag_service]):
    - [document_processor.py]: [DocumentProcessor.process_document],
      [DocumentProcessor.chunk_text];
    - [vector_store.py]: [VectorStore] and its methods;
    - [rag_engine.py]: [RAGEngine] and its methods;
    - [grpc_server.py]: [RAGServiceServicer].

    Conventions.
    - A Python [int] is a [Z]; a Python [str] is a [string]; a Python list is
      a [list]; [Dict] metadata records are [gmap string PyVal].
    - [float32] values (embedding components, distances) are abstracted as
      integers: the squared L2 distance is computed exactly, and the largest
      finite [float32] is the integer [FLT_MAX].
    - A method of a Python object runs in the monad [M] over a [World] that
      holds the [VectorStore] object, the file system and the log records;
      a raised exception is the outcome [Raise].
    - [faiss.IndexFlatL2], [SentenceTransformer], the LangChain splitter and
      the file-format parsers are third-party code: the first is modelled by
      its documented contract in [Module Faiss], the others are fields of
      records ([SentenceTransformer], [Collaborators]) that every theorem
      quantifies over. *)

From stdpp Require Import gmap strings list fin_maps pretty sorting.
From Stdlib Require Import ZArith Lia Ascii.

Local Open Scope Z_scope.

(** ** Python values, exceptions and outcomes *)

Inductive PyVal :=
  | PStr (s : string)
  | PInt (z : Z).

(** [dict.get(key, default)] on a metadata record. *)
Definition dict_get (d : gmap string PyVal) (key : string) (default : PyVal) : PyVal :=
  match d !! key with
  | Some v => v
  | None => default
  end.

Inductive ExnClass :=
  | ValueError
  | AssertionError
  | IndexError
  | FileNotFoundError
  | PermissionError
  | ParserError
  | UnpicklingError
  | EmbeddingError
  | SplitterError.

(** An exception object: its class and [str(e)]. *)
Record Exn := MkExn { exn_class : ExnClass; exn_str : string }.

Inductive outcome (A : Type) :=
  | Ret (a : A)
  | Raise (e : Exn).
Arguments Ret {A} a.
Arguments Raise {A} e.

Definition py_len (s : string) : Z := Z.of_nat (String.length s).

(** Python clips a slice bound to [0, len]; a negative bound counts from the
    end. *)
Definition slice_bound (len i : Z) : Z :=
  if i <? 0 then Z.max 0 (i + len) else Z.min i len.

(** [s[a:b]] for a string. *)
Definition str_slice (s : string) (a b : Z) : string :=
  let lo := slice_bound (py_len s) a in
  let hi := slice_bound (py_len s) b in
  String.substring (Z.to_nat lo) (Z.to_nat (hi - lo)) s.

(** [l[idx]] for a list: a negative index counts from the end, an index out
    of range raises [IndexError]. *)
Definition list_getitem {A} (l : list A) (idx : Z) : outcome A :=
  let i := if idx <? 0 then idx + Z.of_nat (length l) else idx in
  if i <? 0 then Raise (MkExn IndexError "list index out of range")
  else match l !! Z.to_nat i with
       | Some x => Ret x
       | None => Raise (MkExn IndexError "list index out of range")
       end.

(** ** Logging *)

Inductive Level := INFO | WARNING | ERROR.

Record LogRecord := MkLog { log_level : Level; log_msg : string }.

(** ** document_processor.py: [DocumentProcessor.chunk_text] *)

Module Chunker.

(** The [while start < text_length] loop; [fuel] bounds the number of
    times the loop test is evaluated, [None] is "still running". *)
Fixpoint chunk_text_loop (fuel : nat) (text : string) (chunk_size overlap : Z)
    (start : Z) (chunks : list string) : option (list string) :=
  match fuel with
  | O => None
  | S fuel' =>
      if start <? py_len text then
        let end_ := start + chunk_size in
        let chunk := str_slice text start end_ in
        chunk_text_loop fuel' text chunk_size overlap
          (start + (chunk_size - overlap)) (chunks ++ [chunk])
      else Some chunks
  end.

(** [chunk_text(text, chunk_size, overlap)]: the chunks and the record
    logged just before returning. *)
Definition chunk_text (fuel : nat) (text : string) (chunk_size overlap : Z)
    : option (list string * list LogRecord) :=
  match chunk_text_loop fuel text chunk_size overlap 0 [] with
  | None => None
  | Some chunks =>
      Some (chunks,
            [MkLog INFO ("Created " +:+ pretty (length chunks) +:+ " chunks from text")])
  end.

(** Start offset of the [i]-th chunk. *)
Definition chunk_start (chunk_size overlap : Z) (i : nat) : Z :=
  Z.of_nat i * (chunk_size - overlap).

(** End offset of the [i]-th chunk, clipped to the text length. *)
Definition chunk_end (text : string) (chunk_size overlap : Z) (i : nat) : Z :=
  Z.min (chunk_start chunk_size overlap i + chunk_size) (py_len text).

(** Number of windows of step [chunk_size - overlap] needed to reach the
    end of the text. *)
Definition num_chunks (text : string) (chunk_size overlap : Z) : nat :=
  Z.to_nat ((py_len text + (chunk_size - overlap) - 1) / (chunk_size - overlap)).

End Chunker.

(** ** faiss.IndexFlatL2

    Third-party code, modelled by its contract: the index keeps the added
    rows in order; [add] and [search] check the row width against the
    index's [d] (the Python wrapper's [assert d == self.d]); [search]
    demands [k > 0], computes the exact squared L2 distance to every stored
    row and returns, per query row, exactly [k] (distance, label) pairs by
    increasing distance, a missing result being the label [-1] with the
    distance [FLT_MAX]. A row enters the result only when its distance is
    below [FLT_MAX], the initial content of every result slot. *)

Module Faiss.

Definition vec := list Z.

(** The largest finite [float32]. *)
Definition FLT_MAX : Z := 340282346638528859811704183484516925440.

Record IndexFlatL2 := MkIndex { d : Z; xb : list vec }.

Definition new (dim : Z) : IndexFlatL2 := MkIndex dim [].

Definition ntotal (ix : IndexFlatL2) : Z := Z.of_nat (length (xb ix)).

(** Every row of the array has width [dim]. *)
Definition has_width (dim : Z) (x : list vec) : bool :=
  forallb (fun v => Z.of_nat (length v) =? dim) x.

Definition add (ix : IndexFlatL2) (x : list vec) : outcome IndexFlatL2 :=
  if has_width (d ix) x then Ret (MkIndex (d ix) (xb ix ++ x))
  else Raise (MkExn AssertionError "").

Fixpoint l2sqr (x y : vec) : Z :=
  match x, y with
  | a :: x', b :: y' => (a - b) * (a - b) + l2sqr x' y'
  | _, _ => 0
  end.

(** Distance of the query to every stored row, with the row number. *)
Definition scan (q : vec) (rows : list vec) : list (Z * Z) :=
  imap (fun i x => (l2sqr q x, Z.of_nat i)) rows.

(** Insertion by increasing distance; among equal distances the inserted
    hit goes first. *)
Fixpoint insert_hit (h : Z * Z) (hs : list (Z * Z)) : list (Z * Z) :=
  match hs with
  | [] => [h]
  | h' :: hs' => if h.1 <=? h'.1 then h :: hs else h' :: insert_hit h hs'
  end.

Definition sort_hits (hs : list (Z * Z)) : list (Z * Z) :=
  foldr insert_hit [] hs.

(** The [k] result slots for one query row. *)
Definition knn (rows : list vec) (q : vec) (k : nat) : list (Z * Z) :=
  let found :=
    take k (sort_hits (filter (fun h => h.1 < FLT_MAX) (scan q rows))) in
  found ++ replicate (k - length found) (FLT_MAX, -1).

(** Order of the result slots: by non-decreasing distance. *)
Definition by_distance (h h' : Z * Z) : Prop := h.1 <= h'.1.

(** A label is valid for [n] stored rows: a row number, or the [-1] of an
    unfilled slot. *)
Definition valid_label (n : nat) (h : Z * Z) : Prop :=
  h.2 = -1 \/ 0 <= h.2 < Z.of_nat n.

(** [D, I = index.search(x, k)]: one row of distances and one row of
    labels per query row. *)
Definition search (ix : IndexFlatL2) (x : list vec) (k : Z)
    : outcome (list (list Z) * list (list Z)) :=
  if negb (has_width (d ix) x) then Raise (MkExn AssertionError "")
  else if negb (0 <? k) then Raise (MkExn AssertionError "")
  else
    let res := map (fun q => knn (xb ix) q (Z.to_nat k)) x in
    Ret (map (map fst) res, map (map snd) res).

End Faiss.

(** ** sentence_transformers.SentenceTransformer

    Third-party code: a model has a fixed embedding dimension and maps a
    text to a vector, or fails with an exception; the same text always
    gives the same result. *)

Record SentenceTransformer := MkModel {
  get_sentence_embedding_dimension : Z;
  embed : string -> outcome Faiss.vec
}.

(** [model.encode(texts)]: one vector per text, in order; the first failure
    is raised. *)
Fixpoint encode (model : SentenceTransformer) (texts : list string)
    : outcome (list Faiss.vec) :=
  match texts with
  | [] => Ret []
  | t :: ts =>
      match embed model t with
      | Raise e => Raise e
      | Ret v =>
          match encode model ts with
          | Raise e => Raise e
          | Ret vs => Ret (v :: vs)
          end
      end
  end.

(** ** The process state: the store object, the file system, the log *)

(** An element of [VectorStore.documents]: [{"text": ..., "metadata": ...}]. *)
Record Doc := MkDoc { text : string; metadata : gmap string PyVal }.

Record VectorStore := MkStore {
  embedding_model_name : string;
  embedding_model : SentenceTransformer;
  dimension : Z;
  index : Faiss.IndexFlatL2;
  documents : list Doc
}.

(** What a path of the file system holds. *)
Inductive File :=
  | IndexFile (ix : Faiss.IndexFlatL2)
  | PickleFile (docs : list Doc)
  | RawFile (content : string).

(** The files, and the paths that cannot be written. *)
Record FS := MkFS { files : gmap string File; readonly : gset string }.

Record World := MkWorld { store : VectorStore; fs : FS; logs : list LogRecord }.

Definition M (A : Type) : Type := World -> outcome A * World.

Definition ret {A} (a : A) : M A := fun w => (Ret a, w).

Definition raise {A} (e : Exn) : M A := fun w => (Raise e, w).

Definition bind {A B} (m : M A) (k : A -> M B) : M B :=
  fun w =>
    match m w with
    | (Ret a, w') => k a w'
    | (Raise e, w') => (Raise e, w')
    end.

Notation "x <- m ;; k" := (bind m (fun x => k))
  (at level 100, m at next level, right associativity).
Notation "m ;; k" := (bind m (fun _ => k))
  (at level 100, right associativity).

(** [try: body except Exception as e: handler(e)]. *)
Definition try_except {A} (body : M A) (handler : Exn -> M A) : M A :=
  fun w =>
    match body w with
    | (Ret a, w') => (Ret a, w')
    | (Raise e, w') => handler e w'
    end.

(** The result of a pure call that may raise. *)
Definition lift {A} (o : outcome A) : M A := fun w => (o, w).

Definition get_store : M VectorStore := fun w => (Ret (store w), w).

Definition set_index (ix : Faiss.IndexFlatL2) : M unit :=
  fun w =>
    let s := store w in
    (Ret tt,
     MkWorld (MkStore (embedding_model_name s) (embedding_model s) (dimension s)
                ix (documents s))
       (fs w) (logs w)).

Definition set_documents (docs : list Doc) : M unit :=
  fun w =>
    let s := store w in
    (Ret tt,
     MkWorld (MkStore (embedding_model_name s) (embedding_model s) (dimension s)
                (index s) docs)
       (fs w) (logs w)).

Definition logger (lvl : Level) (msg : string) : M unit :=
  fun w => (Ret tt, MkWorld (store w) (fs w) (logs w ++ [MkLog lvl msg])).

Definition logger_info := logger INFO.
Definition logger_warning := logger WARNING.
Definition logger_error := logger ERROR.

(** [os.path.exists(path)]. *)
Definition path_exists (path : string) : M bool :=
  fun w => (Ret (bool_decide (is_Some (files (fs w) !! path))), w).

(** Writing a file: refused on a read-only path. *)
Definition write_file (path : string) (f : File) : M unit :=
  fun w =>
    if bool_decide (path ∈ readonly (fs w))
    then (Raise (MkExn PermissionError ("Permission denied: " +:+ path)), w)
    else (Ret tt,
          MkWorld (store w) (MkFS (<[path := f]> (files (fs w))) (readonly (fs w)))
            (logs w)).

(** [faiss.read_index(path)]. *)
Definition read_index (path : string) : M Faiss.IndexFlatL2 :=
  fun w =>
    match files (fs w) !! path with
    | Some (IndexFile ix) => (Ret ix, w)
    | Some _ => (Raise (MkExn ParserError ("not a faiss index: " +:+ path)), w)
    | None => (Raise (MkExn FileNotFoundError ("could not open " +:+ path)), w)
    end.

(** [with open(path, 'rb') as f: pickle.load(f)]. *)
Definition pickle_load (path : string) : M (list Doc) :=
  fun w =>
    match files (fs w) !! path with
    | Some (PickleFile docs) => (Ret docs, w)
    | Some _ => (Raise (MkExn UnpicklingError "invalid load key"), w)
    | None => (Raise (MkExn FileNotFoundError ("No such file or directory: " +:+ path)), w)
    end.

(** Reading a file as it is, for the extractors. *)
Definition open_file (path : string) : M File :=
  fun w =>
    match files (fs w) !! path with
    | Some f => (Ret f, w)
    | None => (Raise (MkExn FileNotFoundError ("No such file or directory: " +:+ path)), w)
    end.

(** ** vector_store.py: [VectorStore] *)

Module VectorStore.

(** [__init__]: the model named [name] has been loaded as [model]. *)
Definition new (name : string) (model : SentenceTransformer) : VectorStore :=
  let dim := get_sentence_embedding_dimension model in
  MkStore name model dim (Faiss.new dim) [].

(** The two records [__init__] logs. *)
Definition init_logs (s : VectorStore) : list LogRecord :=
  [MkLog INFO ("Vector store initialized with model: " +:+ embedding_model_name s);
   MkLog INFO ("Embedding dimension: " +:+ pretty (dimension s))].

(** [VectorStore(name)] put in place of the process's store. *)
Definition __init__ (name : string) (model : SentenceTransformer) : M unit :=
  fun w =>
    (Ret tt, MkWorld (new name model) (fs w) (logs w ++ init_logs (new name model))).

(** [metadata[i] if metadata and i < len(metadata) else {}]. *)
Definition doc_metadata (metadata : option (list (gmap string PyVal))) (i : nat)
    : gmap string PyVal :=
  match metadata with
  | Some (m :: ms) => default ∅ ((m :: ms) !! i)
  | _ => ∅
  end.

(** The [for i, text in enumerate(texts)] loop of [add_documents], from
    position [i] on. *)
Fixpoint append_documents (metadata : option (list (gmap string PyVal)))
    (i : nat) (texts : list string) : M unit :=
  match texts with
  | [] => ret tt
  | t :: ts =>
      s <- get_store ;;
      set_documents (documents s ++ [MkDoc t (doc_metadata metadata i)]) ;;
      append_documents metadata (S i) ts
  end.

Definition add_documents (texts : list string)
    (metadata : option (list (gmap string PyVal))) : M unit :=
  match texts with
  | [] => logger_warning "No texts to add"
  | _ =>
      logger_info ("Generating embeddings for " +:+ pretty (length texts)
                   +:+ " documents") ;;
      s <- get_store ;;
      embeddings <- lift (encode (embedding_model s) texts) ;;
      ix <- lift (Faiss.add (index s) embeddings) ;;
      set_index ix ;;
      append_documents metadata 0 texts ;;
      logger_info ("Added " +:+ pretty (length texts)
                   +:+ " documents to vector store") ;;
      s' <- get_store ;;
      logger_info ("Total documents in store: " +:+ pretty (length (documents s')))
  end.

(** One result of [search]: [(text, score, metadata)]. *)
Definition Hit : Type := string * Z * gmap string PyVal.

(** The [for i, idx in enumerate(indices[0])] loop of [search], from
    position [i] on. The test [idx < len(self.documents)] is the only one:
    a negative label passes it and indexes the list from its end. *)
Fixpoint collect_results (docs : list Doc) (distances0 : list Z)
    (i : nat) (indices0 : list Z) (results : list Hit) : outcome (list Hit) :=
  match indices0 with
  | [] => Ret results
  | idx :: rest =>
      if idx <? Z.of_nat (length docs) then
        match list_getitem docs idx with
        | Raise e => Raise e
        | Ret doc =>
            match list_getitem distances0 (Z.of_nat i) with
            | Raise e => Raise e
            | Ret dist =>
                collect_results docs distances0 (S i) rest
                  (results ++ [(text doc, dist, metadata doc)])
            end
        end
      else collect_results docs distances0 (S i) rest results
  end.

(** The hit [search] builds from one result slot: the record that
    [documents[idx]] designates, with the slot's distance. *)
Definition hit_of (docs : list Doc) (h : Z * Z) : Hit :=
  match list_getitem docs h.2 with
  | Ret doc => (text doc, h.1, metadata doc)
  | Raise _ => (EmptyString, h.1, ∅)
  end.

(** The rows [indices[0]] and [distances[0]] are taken once, before the
    loop; the index returns one row of each per query row. *)
Definition search (query : string) (k : Z) : M (list Hit) :=
  s <- get_store ;;
  if Faiss.ntotal (index s) =? 0 then
    logger_warning "Vector store is empty" ;;
    ret []
  else
    query_embedding <- lift (encode (embedding_model s) [query]) ;;
    DI <- lift (Faiss.search (index s) query_embedding k) ;;
    indices0 <- lift (list_getitem DI.2 0) ;;
    distances0 <- lift (list_getitem DI.1 0) ;;
    results <- lift (collect_results (documents s) distances0 0 indices0 []) ;;
    logger_info ("Found " +:+ pretty (length results) +:+ " results for query") ;;
    ret results.

Definition save (index_path documents_path : string) : M unit :=
  try_except
    (s <- get_store ;;
     write_file index_path (IndexFile (index s)) ;;
     write_file documents_path (PickleFile (documents s)) ;;
     logger_info ("Vector store saved to " +:+ index_path))
    (fun e =>
       logger_error ("Failed to save vector store: " +:+ exn_str e) ;;
       raise e).

Definition load (index_path documents_path : string) : M unit :=
  try_except
    (has_index <- path_exists index_path ;;
     has_documents <- path_exists documents_path ;;
     if negb has_index || negb has_documents then
       logger_warning "Vector store files not found"
     else
       ix <- read_index index_path ;;
       set_index ix ;;
       docs <- pickle_load documents_path ;;
       set_documents docs ;;
       logger_info ("Vector store loaded from " +:+ index_path) ;;
       logger_info ("Loaded " +:+ pretty (length docs) +:+ " documents"))
    (fun e =>
       logger_error ("Failed to load vector store: " +:+ exn_str e) ;;
       raise e).

Definition clear : M unit :=
  s <- get_store ;;
  set_index (Faiss.new (dimension s)) ;;
  set_documents [] ;;
  logger_info "Vector store cleared".

(** The dictionary [get_stats] returns, one field per key. *)
Record Stats := MkStats {
  total_documents : Z;
  index_size : Z;
  embedding_dimension : Z;
  embedding_model_key : string
}.

Definition get_stats : M Stats :=
  s <- get_store ;;
  ret (MkStats (Z.of_nat (length (documents s))) (Faiss.ntotal (index s))
         (dimension s) (embedding_model_name s)).

(** Row alignment: as many stored vectors as records, the [i]-th vector
    being the embedding of the [i]-th record's text. *)
Definition aligned (s : VectorStore) : Prop :=
  map (fun doc => embed (embedding_model s) (text doc)) (documents s)
  = map Ret (Faiss.xb (index s)).

(** The empty store: no vector and no record. *)
Definition is_empty (s : VectorStore) : Prop :=
  Faiss.xb (index s) = [] /\ documents s = [].

End VectorStore.

(** ** Paths: [pathlib.Path(p).suffix], [str.lower], [os.path.basename] *)

Module PyPath.

(** [s.split(sep)] for a one-character separator. *)
Fixpoint split (sep : ascii) (s : string) : list string :=
  match s with
  | EmptyString => [EmptyString]
  | String c s' =>
      if Ascii.eqb c sep then EmptyString :: split sep s'
      else match split sep s' with
           | [] => [String c EmptyString]
           | part :: parts => String c part :: parts
           end
  end.

(** [s.rfind(c)] as an option, positions counted from [pos]. *)
Fixpoint rfind_from (c : ascii) (s : string) (pos : nat) : option nat :=
  match s with
  | EmptyString => None
  | String a s' =>
      match rfind_from c s' (S pos) with
      | Some j => Some j
      | None => if Ascii.eqb a c then Some pos else None
      end
  end.

Definition lower_char (c : ascii) : ascii :=
  let n := nat_of_ascii c in
  if ((65 <=? n) && (n <=? 90))%nat then ascii_of_nat (n + 32) else c.

(** [s.lower()] on ASCII letters. *)
Fixpoint lower (s : string) : string :=
  match s with
  | EmptyString => EmptyString
  | String c s' => String (lower_char c) (lower s')
  end.

(** [os.path.basename(p)]: what follows the last slash. *)
Definition basename (p : string) : string :=
  default EmptyString (last (split "/" p)).

(** [Path(p).name]: the last component, empty and ["."] components being
    dropped by the path parser. *)
Definition name (p : string) : string :=
  default EmptyString
    (last (filter (fun part => part <> EmptyString /\ part <> "."%string)
             (split "/" p))).

(** [Path(p).suffix]: from the last dot of the name on, when that dot is
    neither its first nor its last character. *)
Definition suffix (p : string) : string :=
  let nm := name p in
  match rfind_from "." nm 0 with
  | Some i =>
      if ((0 <? i) && (i <? String.length nm - 1))%nat
      then String.substring i (String.length nm - i) nm
      else EmptyString
  | None => EmptyString
  end.

(** Does the character occur in the string? *)
Fixpoint has_char (c : ascii) (s : string) : bool :=
  match s with
  | EmptyString => false
  | String a s' => Ascii.eqb a c || has_char c s'
  end.

(** [s.rfind(c)]: the last position of the character, [-1] when absent. *)
Definition rfind (c : ascii) (s : string) : Z :=
  match rfind_from c s 0 with
  | Some i => Z.of_nat i
  | None => -1
  end.

(** The [while filenameIndex < dotIndex] loop of [os.path.splitext], which
    skips the leading dots of the file name: [true] when a character other
    than a dot is met within [count] positions from [filenameIndex]. *)
Fixpoint has_non_dot (p : string) (filenameIndex count : nat) : bool :=
  match count with
  | O => false
  | S count' =>
      match String.get filenameIndex p with
      | Some c =>
          if Ascii.eqb c "." then has_non_dot p (S filenameIndex) count' else true
      | None => true
      end
  end.

(** [os.path.splitext(p)[1]]: from the last dot on, when that dot lies
    after the last slash and after a character of the file name that is not
    a dot; otherwise empty. *)
Definition splitext_ext (p : string) : string :=
  let sepIndex := rfind "/" p in
  let dotIndex := rfind "." p in
  if sepIndex <? dotIndex then
    if has_non_dot p (Z.to_nat (sepIndex + 1)) (Z.to_nat (dotIndex - (sepIndex + 1)))
    then str_slice p dotIndex (py_len p)
    else EmptyString
  else EmptyString.

End PyPath.

(** ** document_processor.py: [DocumentProcessor.process_document] *)

(** The third-party parsers behind the extractors ([pypdf], [python-docx],
    [pandas]): the pages of a PDF, the paragraphs of a DOCX, the sheets of a
    workbook as (name, [to_string]) pairs, the [to_string] of a CSV. *)
Record Parsers := MkParsers {
  pdf_pages : File -> outcome (list string);
  docx_paragraphs : File -> outcome (list string);
  excel_sheets : File -> outcome (list (string * string));
  csv_to_string : File -> outcome string
}.

Module DocumentProcessor.

Definition newline : string := String (ascii_of_nat 10) EmptyString.

Definition extract_text_from_pdf (ps : Parsers) (file_path : string) : M string :=
  try_except
    (f <- open_file file_path ;;
     pages <- lift (pdf_pages ps f) ;;
     let text := fold_left (fun acc page => acc +:+ page +:+ newline) pages EmptyString in
     logger_info ("Extracted text from PDF: " +:+ file_path) ;;
     ret text)
    (fun e =>
       logger_error ("Failed to extract PDF text: " +:+ exn_str e) ;;
       raise e).

Definition extract_text_from_docx (ps : Parsers) (file_path : string) : M string :=
  try_except
    (f <- open_file file_path ;;
     paragraphs <- lift (docx_paragraphs ps f) ;;
     let text := String.concat newline paragraphs in
     logger_info ("Extracted text from DOCX: " +:+ file_path) ;;
     ret text)
    (fun e =>
       logger_error ("Failed to extract DOCX text: " +:+ exn_str e) ;;
       raise e).

Definition extract_text_from_excel (ps : Parsers) (file_path : string) : M string :=
  try_except
    (f <- open_file file_path ;;
     sheets <- lift (excel_sheets ps f) ;;
     let text :=
       fold_left
         (fun acc sheet =>
            acc +:+ newline +:+ "--- Sheet: " +:+ sheet.1 +:+ " ---" +:+ newline
                +:+ sheet.2 +:+ newline)
         sheets EmptyString in
     logger_info ("Extracted text from Excel: " +:+ file_path) ;;
     ret text)
    (fun e =>
       logger_error ("Failed to extract Excel text: " +:+ exn_str e) ;;
       raise e).

Definition extract_text_from_csv (ps : Parsers) (file_path : string) : M string :=
  try_except
    (f <- open_file file_path ;;
     text <- lift (csv_to_string ps f) ;;
     logger_info ("Extracted text from CSV: " +:+ file_path) ;;
     ret text)
    (fun e =>
       logger_error ("Failed to extract CSV text: " +:+ exn_str e) ;;
       raise e).

(** [file.read()] with [encoding='utf-8']: a binary artifact does not
    decode. *)
Definition read_text (f : File) : outcome string :=
  match f with
  | RawFile content => Ret content
  | _ => Raise (MkExn ValueError "'utf-8' codec can't decode byte")
  end.

Definition extract_text_from_txt (file_path : string) : M string :=
  try_except
    (f <- open_file file_path ;;
     text <- lift (read_text f) ;;
     logger_info ("Extracted text from TXT: " +:+ file_path) ;;
     ret text)
    (fun e =>
       logger_error ("Failed to extract TXT text: " +:+ exn_str e) ;;
       raise e).

(** The [extractors] dictionary, as its lookup. *)
Definition extractors (ps : Parsers) (file_extension : string)
    : option (string -> M string) :=
  if String.eqb file_extension ".pdf" then Some (extract_text_from_pdf ps)
  else if String.eqb file_extension ".docx" then Some (extract_text_from_docx ps)
  else if String.eqb file_extension ".xlsx" then Some (extract_text_from_excel ps)
  else if String.eqb file_extension ".xls" then Some (extract_text_from_excel ps)
  else if String.eqb file_extension ".csv" then Some (extract_text_from_csv ps)
  else if String.eqb file_extension ".txt" then Some extract_text_from_txt
  else None.

(** The dictionary [process_document] returns. *)
Record DocData := MkDocData {
  filename : string;
  doc_text : string;
  file_type : string
}.

Definition process_document (ps : Parsers) (file_path : string) : M DocData :=
  let file_extension := PyPath.lower (PyPath.suffix file_path) in
  match extractors ps file_extension with
  | None => raise (MkExn ValueError ("Unsupported file type: " +:+ file_extension))
  | Some extractor =>
      text <- extractor file_path ;;
      ret (MkDocData (PyPath.basename file_path) text file_extension)
  end.

End DocumentProcessor.

(** ** rag_engine.py: [RAGEngine] *)

(** What the engine is built from besides the store: the parsers, the
    LangChain splitter ([RecursiveCharacterTextSplitter.split_text], third
    party) and the setting [faiss_index_path]. *)
Record Collaborators := MkCollaborators {
  parsers : Parsers;
  split_text : string -> outcome (list string);
  faiss_index_path : string
}.

Module RAGEngine.
Import DocumentProcessor.

Definition index_path (c : Collaborators) : string :=
  faiss_index_path c +:+ "/index.faiss".

Definition docs_path (c : Collaborators) : string :=
  faiss_index_path c +:+ "/documents.pkl".

Definition _load_vector_store (c : Collaborators) : M unit :=
  try_except
    (VectorStore.load (index_path c) (docs_path c))
    (fun e => logger_warning ("Could not load existing vector store: " +:+ exn_str e)).

(** [os.makedirs(..., exist_ok=True)] has no counterpart: the file system
    here is flat. *)
Definition _save_vector_store (c : Collaborators) : M unit :=
  try_except
    (VectorStore.save (index_path c) (docs_path c))
    (fun e => logger_error ("Failed to save vector store: " +:+ exn_str e)).

(** [RAGEngine()]: the store is constructed for the configured model, then
    the persisted state is loaded. *)
Definition __init__ (c : Collaborators) (name : string) (model : SentenceTransformer)
    : M unit :=
  VectorStore.__init__ name model ;;
  _load_vector_store c ;;
  logger_info "RAG engine initialized".

(** The dictionary [ingest_document] returns: the success one or the
    error one. *)
Inductive IngestResult :=
  | IngestSuccess (filename : string) (chunks_created : Z) (file_type : string)
  | IngestError (message : string).

Definition status (r : IngestResult) : string :=
  match r with
  | IngestSuccess _ _ _ => "success"
  | IngestError _ => "error"
  end.

(** [{"filename": ..., "file_type": ..., "chunk_index": i}]. *)
Definition chunk_metadata (doc_data : DocData) (i : nat) : gmap string PyVal :=
  <["filename" := PStr (filename doc_data)]>
    (<["file_type" := PStr (file_type doc_data)]>
       (<["chunk_index" := PInt (Z.of_nat i)]> ∅)).

Definition ingest_document (c : Collaborators) (file_path : string) : M IngestResult :=
  try_except
    (logger_info ("Ingesting document: " +:+ file_path) ;;
     doc_data <- process_document (parsers c) file_path ;;
     chunks <- lift (split_text c (doc_text doc_data)) ;;
     let metadata := map (chunk_metadata doc_data) (seq 0 (length chunks)) in
     VectorStore.add_documents chunks (Some metadata) ;;
     _save_vector_store c ;;
     logger_info ("Successfully ingested " +:+ pretty (length chunks)
                  +:+ " chunks from " +:+ filename doc_data) ;;
     ret (IngestSuccess (filename doc_data) (Z.of_nat (length chunks))
            (file_type doc_data)))
    (fun e =>
       logger_error ("Document ingestion failed: " +:+ exn_str e) ;;
       ret (IngestError (exn_str e))).

Definition retrieve_context (query : string) (k : Z) : M (list VectorStore.Hit) :=
  results <- VectorStore.search query k ;;
  logger_info ("Retrieved " +:+ pretty (length results) +:+ " documents for query") ;;
  ret results.

(** An element of ["sources"]. *)
Record Source := MkSource {
  source_filename : PyVal;
  source_chunk_index : PyVal;
  relevance_score : Z
}.

(** The dictionary [generate_answer] returns. *)
Record Answer := MkAnswer {
  answer : string;
  sources : list Source;
  context_used : bool
}.

Definition source_of (doc : VectorStore.Hit) : Source :=
  MkSource (dict_get doc.2 "filename" (PStr "unknown"))
           (dict_get doc.2 "chunk_index" (PInt 0))
           doc.1.2.

(** The context and history texts and the prompt template are built and
    not used, and building them raises nothing. *)
Definition generate_answer (query : string) (context : list VectorStore.Hit)
    (conversation_history : option (list (string * string))) : M Answer :=
  try_except
    (ret (MkAnswer
            ("Based on the retrieved context, I found " +:+ pretty (length context)
             +:+ " relevant documents. "
             +:+ "The actual answer generation will be integrated with the LLM service.")
            (map source_of context)
            (bool_decide (0 < length context)%nat)))
    (fun e =>
       logger_error ("Answer generation failed: " +:+ exn_str e) ;;
       ret (MkAnswer ("Error generating answer: " +:+ exn_str e) [] false)).

Definition query (q : string) (conversation_history : option (list (string * string)))
    (k : Z) : M Answer :=
  logger_info ("Processing RAG query: " +:+ str_slice q 0 50 +:+ "...") ;;
  context <- retrieve_context q k ;;
  result <- generate_answer q context conversation_history ;;
  ret result.

Definition get_stats : M VectorStore.Stats := VectorStore.get_stats.

End RAGEngine.

(** [os.unlink(path)]. *)
Definition unlink (path : string) : M unit :=
  fun w =>
    match files (fs w) !! path with
    | Some _ =>
        (Ret tt,
         MkWorld (store w) (MkFS (delete path (files (fs w))) (readonly (fs w)))
           (logs w))
    | None =>
        (Raise (MkExn FileNotFoundError ("No such file or directory: " +:+ path)), w)
    end.

(** ** grpc_server.py: [RAGServiceServicer] *)

Module RAGServiceServicer.

Record QueryRequest := MkQueryRequest {
  request_query : string;
  request_conversation_history : list (string * string);
  request_k : Z
}.

(** [QueryResponse(answer, sources, context_used)]. *)
Definition Query (request : QueryRequest) : M RAGEngine.Answer :=
  try_except
    (logger_info ("Processing query: " +:+ str_slice (request_query request) 0 50
                  +:+ "...") ;;
     let conversation_history := request_conversation_history request in
     result <- RAGEngine.query (request_query request)
                 (match conversation_history with
                  | [] => None
                  | _ => Some conversation_history
                  end)
                 (if 0 <? request_k request then request_k request else 5) ;;
     ret result)
    (fun e =>
       logger_error ("Query processing failed: " +:+ exn_str e) ;;
       ret (RAGEngine.MkAnswer ("Error processing query: " +:+ exn_str e) [] false)).

(** [IngestDocumentRequest(file_data, filename)]. *)
Record IngestDocumentRequest := MkIngestDocumentRequest {
  request_file_data : string;
  request_filename : string
}.

(** [IngestDocumentResponse(status, filename, chunks_created, file_type,
    message)]. *)
Record IngestDocumentResponse := MkIngestDocumentResponse {
  response_status : string;
  response_filename : string;
  response_chunks_created : Z;
  response_file_type : string;
  response_message : string
}.

(** The response built from the engine's result dictionary with
    [result.get(key, default)]. *)
Definition ingest_response (result : RAGEngine.IngestResult)
    (request : IngestDocumentRequest) : IngestDocumentResponse :=
  match result with
  | RAGEngine.IngestSuccess filename chunks_created file_type =>
      MkIngestDocumentResponse "success" filename chunks_created file_type ""
  | RAGEngine.IngestError message =>
      MkIngestDocumentResponse "error" (request_filename request) 0 "unknown" message
  end.

(** [IngestDocument]. [temp_stem] is the name [tempfile.NamedTemporaryFile]
    picks before the suffix: the temporary directory, a slash, the prefix
    and the random part. *)
Definition IngestDocument (c : Collaborators) (temp_stem : string)
    (request : IngestDocumentRequest) : M IngestDocumentResponse :=
  try_except
    (logger_info ("Ingesting document: " +:+ request_filename request) ;;
     let temp_path := temp_stem +:+ PyPath.splitext_ext (request_filename request) in
     write_file temp_path (RawFile (request_file_data request)) ;;
     result <- RAGEngine.ingest_document c temp_path ;;
     unlink temp_path ;;
     ret (ingest_response result request))
    (fun e =>
       logger_error ("Document ingestion failed: " +:+ exn_str e) ;;
       ret (MkIngestDocumentResponse "error" (request_filename request) 0 "unknown"
              (exn_str e))).

(** The dictionary [get_stats] returns, key by key. *)
Definition stats_dict (stats : VectorStore.Stats) : gmap string PyVal :=
  <["total_documents" := PInt (VectorStore.total_documents stats)]>
    (<["index_size" := PInt (VectorStore.index_size stats)]>
       (<["embedding_dimension" := PInt (VectorStore.embedding_dimension stats)]>
          (<["embedding_model" := PStr (VectorStore.embedding_model_key stats)]> ∅))).

(** [GetStatsResponse(total_documents, total_chunks)]. *)
Record GetStatsResponse := MkGetStatsResponse {
  response_total_documents : PyVal;
  response_total_chunks : PyVal
}.

Definition GetStats : M GetStatsResponse :=
  try_except
    (stats <- RAGEngine.get_stats ;;
     ret (MkGetStatsResponse
            (dict_get (stats_dict stats) "total_documents" (PInt 0))
            (dict_get (stats_dict stats) "total_chunks" (PInt 0))))
    (fun e =>
       logger_error ("Failed to get stats: " +:+ exn_str e) ;;
       ret (MkGetStatsResponse (PInt 0) (PInt 0))).

End RAGServiceServicer.

(** ** Actions that only read *)

(** An action is read-only when, whether it returns or raises, it leaves the
    store and the files as they were and only appends to the log. *)
Definition read_only {A} (m : M A) : Prop :=
  forall w : World,
    store (m w).2 = store w /\
    fs (m w).2 = fs w /\
    logs w `prefix_of` logs (m w).2.

(** ** Sequences of store operations *)

Module Trace.

Inductive Op :=
  | AddDocuments (texts : list string) (metadata : option (list (gmap string PyVal)))
  | Search (query : string) (k : Z)
  | Save (index_path documents_path : string)
  | Load (index_path documents_path : string)
  | Clear.

(** The world after one operation, whether it returned or raised. *)
Definition step (op : Op) (w : World) : World :=
  match op with
  | AddDocuments texts metadata => (VectorStore.add_documents texts metadata w).2
  | Search query k => (VectorStore.search query k w).2
  | Save index_path documents_path => (VectorStore.save index_path documents_path w).2
  | Load index_path documents_path => (VectorStore.load index_path documents_path w).2
  | Clear => (VectorStore.clear w).2
  end.

Definition run (ops : list Op) (w : World) : World :=
  fold_left (fun w op => step op w) ops w.

(** The two artifacts a [load] would read are safe for the store [s]:
    one is missing, or the index artifact is unreadable, or both are
    readable and row-aligned under the store's embedding model. *)
Definition load_safe (s : VectorStore) (fsys : FS) (index_path documents_path : string)
    : Prop :=
  match files fsys !! index_path, files fsys !! documents_path with
  | Some (IndexFile ix), Some (PickleFile docs) =>
      map (fun doc => embed (embedding_model s) (text doc)) docs
      = map Ret (Faiss.xb ix)
  | Some (IndexFile _), Some _ => False
  | _, _ => True
  end.

(** Every [Load] of the sequence finds safe artifacts at the moment it
    runs. *)
Fixpoint loads_safe (ops : list Op) (w : World) : Prop :=
  match ops with
  | [] => True
  | op :: rest =>
      match op with
      | Load index_path documents_path =>
          load_safe (store w) (fs w) index_path documents_path
      | _ => True
      end /\ loads_safe rest (step op w)
  end.

End Trace.

(** The world with another store object in place of the current one. *)
Definition with_store (s : VectorStore) (w : World) : World :=
  MkWorld s (fs w) (logs w).

(** ** Worlds used as concrete inputs *)

Module Examples.

(** A text of 2500 characters. *)
Definition long_text : string :=
  String.string_of_list_ascii (replicate 2500 "x"%char).

(** A one-dimensional model: a text embeds to its length. *)
Definition len_model : SentenceTransformer :=
  MkModel 1 (fun s => Ret [py_len s]).

(** Another one-dimensional model: a text embeds to twice its length. *)
Definition twice_model : SentenceTransformer :=
  MkModel 1 (fun s => Ret [2 * py_len s]).

(** A model whose backend fails on the empty text. *)
Definition flaky_model : SentenceTransformer :=
  MkModel 1 (fun s =>
    if String.eqb s "" then Raise (MkExn EmbeddingError "empty input")
    else Ret [py_len s]).

Definition empty_fs : FS := MkFS ∅ ∅.

(** A freshly constructed store over an empty file system. *)
Definition fresh : World :=
  MkWorld (VectorStore.new "len" len_model) empty_fs [].

Definition flaky_fresh : World :=
  MkWorld (VectorStore.new "flaky" flaky_model) empty_fs [].

(** A store holding the two rows ["a"] and ["bbb"]. *)
Definition two_rows : World :=
  (VectorStore.add_documents ["a"; "bbb"]%string None fresh).2.

Definition flaky_two_rows : World :=
  (VectorStore.add_documents ["a"; "bbb"]%string None flaky_fresh).2.

(** A store of the one-dimensional model whose index, as after the load of
    a foreign artifact, has dimension 2. *)
Definition widened : World :=
  MkWorld (MkStore "len" len_model 1 (Faiss.MkIndex 2 [[1; 0]]) [MkDoc "a" ∅])
    empty_fs [].

Definition one_record : gmap string PyVal := {[ "filename" := PStr "f.txt" ]}.

(** Two artifacts that do not belong together: an index of two rows and a
    pickle of one record. *)
Definition mismatched : World :=
  MkWorld (VectorStore.new "len" len_model)
    (MkFS (<["idx" := IndexFile (Faiss.MkIndex 1 [[1]; [3]])]>
             (<["docs" := PickleFile [MkDoc "a" ∅]]> ∅)) ∅)
    [].

(** A readable index artifact next to a documents artifact that is not a
    pickle. *)
Definition torn : World :=
  MkWorld (VectorStore.new "len" len_model)
    (MkFS (<["idx" := IndexFile (Faiss.MkIndex 1 [[1]; [3]])]>
             (<["docs" := RawFile "garbage"]> ∅)) ∅)
    [].

(** Two saves under different path pairs, then a load that takes the
    index of the first and the records of the second. *)
Definition crossed_trace : list Trace.Op :=
  [Trace.AddDocuments ["a"%string] None;
   Trace.Save "i1" "d1";
   Trace.AddDocuments ["bbb"%string] None;
   Trace.Save "i2" "d2";
   Trace.Load "i1" "d2"].

(** Add, save, clear, load the saved pair back, search. *)
Definition reload_trace : list Trace.Op :=
  [Trace.AddDocuments ["a"; "bbb"]%string (Some [one_record]);
   Trace.Save "i" "d";
   Trace.Clear;
   Trace.Load "i" "d";
   Trace.Search "bb" 1].

(** Collaborators for the engine: parsers that always fail, a splitter
    that cuts at ["|"] and fails on the empty text. *)
Definition no_parser {A} (f : File) : outcome A :=
  Raise (MkExn ParserError "cannot parse").

Definition collaborators : Collaborators :=
  MkCollaborators
    (MkParsers no_parser no_parser no_parser no_parser)
    (fun s => if String.eqb s "" then Raise (MkExn SplitterError "nothing to split")
              else Ret (PyPath.split "|" s))
    "./data/faiss_index".

(** A knowledge base of five files. *)
Definition kb_fs : FS :=
  MkFS (<["/kb/doc.txt" := RawFile "a|bbb|ccccc"]>
          (<["/kb/gap.txt" := RawFile "a||b"]>
          (<["/kb/empty.txt" := RawFile ""]>
             (<["/kb/notes.md" := RawFile "x"]>
                (<["/kb/paper.pdf" := RawFile "%PDF"]> ∅)))))
       ∅.

Definition kb_fresh : World :=
  MkWorld (VectorStore.new "len" len_model) kb_fs [].

Definition kb_flaky : World :=
  MkWorld (VectorStore.new "flaky" flaky_model) kb_fs [].

(** The world after ingesting the document of three chunks. *)
Definition ingested : World :=
  (RAGEngine.ingest_document collaborators "/kb/doc.txt" kb_fresh).2.

(** A world whose documents artifact path cannot be written. *)
Definition docs_locked : World :=
  MkWorld (store two_rows) (MkFS ∅ {[ "d"%string ]}) [].

End Examples.

(** * Theorems *)

(** ** Strings and slices *)

Lemma length_substring (s : string) (n m : nat) :
  String.length (String.substring n m s) = Nat.min m (String.length s - n).
Proof.
  revert n m. induction s as [|c s IH]; intros n m.
  - destruct n, m; reflexivity.
  - destruct n as [|n].
    + destruct m as [|m]; simpl; [reflexivity|].
      rewrite IH. f_equal. f_equal. lia.
    + simpl. apply IH.
Qed.

Lemma py_len_str_slice (s : string) (a b : Z) :
  0 <= a -> a <= b ->
  py_len (str_slice s a b) = Z.max 0 (Z.min b (py_len s) - a).
Proof.
  intros Ha Hab. unfold str_slice, py_len, slice_bound.
  rewrite length_substring.
  destruct (a <? 0) eqn:E1; [apply Z.ltb_lt in E1; lia|].
  destruct (b <? 0) eqn:E2; [apply Z.ltb_lt in E2; lia|].
  lia.
Qed.

Lemma str_slice_clip (s : string) (a b : Z) :
  0 <= b -> str_slice s a b = str_slice s a (Z.min b (py_len s)).
Proof.
  intros Hb. unfold str_slice, slice_bound.
  assert (Hl : 0 <= py_len s) by (unfold py_len; lia).
  destruct (b <? 0) eqn:E; [apply Z.ltb_lt in E; lia|].
  destruct (Z.min b (py_len s) <? 0) eqn:E'; [apply Z.ltb_lt in E'; lia|].
  do 3 f_equal. lia.
Qed.

(** ** The chunker *)

Section ChunkerFacts.
Import Chunker.
Variables (text : string) (chunk_size overlap : Z).

Let step := chunk_size - overlap.
Let window (start : Z) := str_slice text start (start + chunk_size).

(** [m] iterations of the loop body followed by a failing loop test. *)
Lemma chunk_text_loop_unroll (m : nat) :
  forall (fuel : nat) (start : Z) (chunks : list string),
    (forall i, (i < m)%nat -> start + Z.of_nat i * step < py_len text) ->
    py_len text <= start + Z.of_nat m * step ->
    (m < fuel)%nat ->
    chunk_text_loop fuel text chunk_size overlap start chunks
    = Some (chunks ++ map (fun i => window (start + Z.of_nat i * step)) (seq 0 m)).
Proof.
  unfold window, step.
  induction m as [|m IH]; intros fuel start chunks Hlt Hge Hfuel.
  - destruct fuel as [|fuel]; [lia|]. simpl.
    destruct (start <? py_len text) eqn:E; [apply Z.ltb_lt in E; lia|].
    by rewrite app_nil_r.
  - destruct fuel as [|fuel]; [lia|]. simpl.
    destruct (start <? py_len text) eqn:E.
    2:{ apply Z.ltb_ge in E. specialize (Hlt 0%nat ltac:(lia)). lia. }
    rewrite (IH fuel (start + (chunk_size - overlap))).
    + rewrite <- app_assoc. do 2 f_equal. simpl. f_equal.
      * f_equal; lia.
      * rewrite <- seq_shift, map_map. apply map_ext. intros i.
        f_equal; lia.
    + intros i Hi. specialize (Hlt (S i) ltac:(lia)). lia.
    + lia.
    + lia.
Qed.

(** With a non-positive step the loop test never fails on a non-empty
    text. *)
Lemma chunk_text_loop_diverges (fuel : nat) :
  forall (start : Z) (chunks : list string),
    step <= 0 -> start <= 0 -> 0 < py_len text ->
    chunk_text_loop fuel text chunk_size overlap start chunks = None.
Proof.
  unfold step.
  induction fuel as [|fuel IH]; intros start chunks Hstep Hstart Hlen; [done|].
  simpl. destruct (start <? py_len text) eqn:E.
  - apply IH; [done| lia | done].
  - apply Z.ltb_ge in E. lia.
Qed.

End ChunkerFacts.

Lemma num_chunks_bounds (text : string) (chunk_size overlap : Z) :
  0 < chunk_size - overlap ->
  let n := Z.of_nat (Chunker.num_chunks text chunk_size overlap) in
  (n - 1) * (chunk_size - overlap) < py_len text <= n * (chunk_size - overlap).
Proof.
  intros Hstep. unfold Chunker.num_chunks.
  set (step := chunk_size - overlap) in *.
  assert (Hlen : 0 <= py_len text) by (unfold py_len; lia).
  set (len := py_len text) in *.
  assert (Hq : 0 <= (len + step - 1) / step) by (apply Z.div_pos; lia).
  cbv zeta. rewrite Z2Nat.id by done.
  pose proof (Z.mul_div_le (len + step - 1) step Hstep).
  pose proof (Z.mul_succ_div_gt (len + step - 1) step Hstep).
  nia.
Qed.

(** C3. For every text, every [chunk_size > 0] and every overlap with
    [0 <= overlap < chunk_size], [chunk_text] returns (given enough fuel, and
    with any larger fuel as well) chunks such that: the [i]-th chunk is
    [text[start_i : start_i + chunk_size]] with [start_i = i * (chunk_size -
    overlap)], so consecutive starts are exactly [chunk_size - overlap]
    apart; every start lies inside the text and the chunk's length is its end
    clipped to the text length minus its start; every offset of
    [0, len(text))] lies in some chunk; the last chunk ends exactly at
    [len(text)]. In particular, for a text of length 2500 with
    [chunk_size = 1000] and [overlap = 200] the starts are
    [0, 800, 1600, 2400], there are 4 chunks and the last one is
    [text[2400:2500]], of length 100. *)
Theorem chunk_text_windows (text : string) (chunk_size overlap : Z) :
  0 < chunk_size -> 0 <= overlap < chunk_size ->
  exists (fuel : nat) (chunks : list string),
    (forall fuel', (fuel <= fuel')%nat ->
       fst <$> Chunker.chunk_text fuel' text chunk_size overlap = Some chunks) /\
    chunks = map (fun i => str_slice text (Chunker.chunk_start chunk_size overlap i)
                             (Chunker.chunk_start chunk_size overlap i + chunk_size))
                 (seq 0 (length chunks)) /\
    (forall i, (i < length chunks)%nat ->
       Chunker.chunk_start chunk_size overlap (S i)
         = Chunker.chunk_start chunk_size overlap i + (chunk_size - overlap) /\
       0 <= Chunker.chunk_start chunk_size overlap i < py_len text /\
       exists c, chunks !! i = Some c /\
         py_len c = Chunker.chunk_end text chunk_size overlap i
                    - Chunker.chunk_start chunk_size overlap i) /\
    (forall p, 0 <= p < py_len text ->
       exists i, (i < length chunks)%nat /\
         Chunker.chunk_start chunk_size overlap i <= p
           < Chunker.chunk_end text chunk_size overlap i) /\
    (forall n, length chunks = S n ->
       Chunker.chunk_end text chunk_size overlap n = py_len text) /\
    (py_len text = 2500 -> chunk_size = 1000 -> overlap = 200 ->
       map (Chunker.chunk_start chunk_size overlap) (seq 0 (length chunks))
         = [0; 800; 1600; 2400] /\
       length chunks = 4%nat /\
       last chunks = Some (str_slice text 2400 2500) /\
       py_len (str_slice text 2400 2500) = 100).
Proof.
  intros Hcs Hov.
  set (step := chunk_size - overlap).
  assert (Hstep : 0 < step) by (unfold step; lia).
  set (n := Chunker.num_chunks text chunk_size overlap).
  pose proof (num_chunks_bounds text chunk_size overlap Hstep) as Hn.
  cbv zeta in Hn. fold n step in Hn.
  set (chunks := map (fun i => str_slice text (Chunker.chunk_start chunk_size overlap i)
                      (Chunker.chunk_start chunk_size overlap i + chunk_size)) (seq 0 n)).
  assert (Hlen : length chunks = n) by (unfold chunks; by rewrite length_map, length_seq).
  assert (Hin : forall i, (i < n)%nat ->
            0 <= Chunker.chunk_start chunk_size overlap i < py_len text).
  { intros i Hi. unfold Chunker.chunk_start. fold step. nia. }
  exists (S n), chunks. split_and!.
  - intros fuel' Hfuel. unfold Chunker.chunk_text.
    rewrite (chunk_text_loop_unroll text chunk_size overlap n).
    + reflexivity.
    + intros i Hi. specialize (Hin i Hi). unfold Chunker.chunk_start in Hin. lia.
    + fold step. lia.
    + lia.
  - by rewrite Hlen.
  - intros i Hi. rewrite Hlen in Hi. specialize (Hin i Hi). split_and!.
    + unfold Chunker.chunk_start. lia.
    + lia.
    + lia.
    + eexists. split.
      * unfold chunks. rewrite list_lookup_fmap, lookup_seq_lt by done. reflexivity.
      * simpl. rewrite py_len_str_slice by lia. unfold Chunker.chunk_end. lia.
  - intros p Hp. rewrite Hlen.
    exists (Z.to_nat (p / step)).
    pose proof (Z.mul_div_le p step Hstep).
    pose proof (Z.mul_succ_div_gt p step Hstep).
    assert (0 <= p / step) by (apply Z.div_pos; lia).
    unfold Chunker.chunk_end, Chunker.chunk_start. fold step.
    rewrite Z2Nat.id by done.
    assert (step <= chunk_size) by (unfold step; lia).
    split; [|nia].
    apply Nat2Z.inj_lt. rewrite Z2Nat.id by done. nia.
  - intros m Hm. rewrite Hlen in Hm.
    unfold Chunker.chunk_end, Chunker.chunk_start. fold step.
    assert (step <= chunk_size) by (unfold step; lia).
    rewrite Hm in Hn. nia.
  - intros H2500 -> ->.
    assert (Hn4 : n = 4%nat).
    { unfold n, Chunker.num_chunks. rewrite H2500. reflexivity. }
    rewrite Hlen, Hn4. split_and!.
    + reflexivity.
    + reflexivity.
    + unfold chunks. rewrite Hn4.
      change (Some (str_slice text 2400 3400) = Some (str_slice text 2400 2500)).
      rewrite (str_slice_clip text 2400 3400) by lia.
      rewrite H2500. reflexivity.
    + rewrite py_len_str_slice by lia. rewrite H2500. reflexivity.
Qed.

(** C3 on a text of 2500 characters with the default window: four chunks,
    the last one being [text[2400:2500]], of length 100. *)
Lemma chunk_text_windows_witness :
  exists (fuel : nat) (chunks : list string),
    fst <$> Chunker.chunk_text fuel Examples.long_text 1000 200 = Some chunks /\
    map (Chunker.chunk_start 1000 200) (seq 0 (length chunks)) = [0; 800; 1600; 2400] /\
    length chunks = 4%nat /\
    last chunks = Some (str_slice Examples.long_text 2400 2500) /\
    py_len (str_slice Examples.long_text 2400 2500) = 100.
Proof.
  destruct (chunk_text_windows Examples.long_text 1000 200)
    as (fuel & chunks & Hrun & _ & _ & _ & _ & Hscenario).
  - lia.
  - lia.
  - exists fuel, chunks. split.
    + apply Hrun. apply Nat.le_refl.
    + apply Hscenario; reflexivity.
Defined.

(** The same on a ten-character text cut into windows of 4 with overlap 1. *)
Example chunk_text_ten_characters :
  fst <$> Chunker.chunk_text 5 "abcdefghij" 4 1
  = Some ["abcd"; "defg"; "ghij"; "j"]%string.
Proof. reflexivity. Qed.

(** C4 as stated fails: with [overlap >= chunk_size] nothing is rejected.
    On the empty text the call returns the empty chunk list; on ["abc"] with
    [chunk_size = overlap = 2] the first chunk ["ab"] is appended and the
    loop is entered again with the same start, and no amount of fuel makes
    the call return. *)
Lemma chunk_text_overlap_not_rejected :
  Chunker.chunk_text 1 "" 5 5
    = Some ([], [MkLog INFO "Created 0 chunks from text"]) /\
  (forall fuel, Chunker.chunk_text_loop (S fuel) "abc" 2 2 0 []
                = Chunker.chunk_text_loop fuel "abc" 2 2 0 ["ab"%string]) /\
  (forall fuel, Chunker.chunk_text fuel "abc" 2 2 = None).
Proof.
  split_and!.
  - reflexivity.
  - reflexivity.
  - intros fuel. unfold Chunker.chunk_text.
    by rewrite chunk_text_loop_diverges.
Qed.

(** C4, amended. [chunk_text] validates nothing. With
    [overlap >= chunk_size] it returns the empty chunk list on the empty
    text, and on a non-empty text it never returns, whatever the fuel. *)
Theorem chunk_text_overlap_ge_size (text : string) (chunk_size overlap : Z) :
  chunk_size <= overlap ->
  (text = ""%string ->
     forall fuel, fst <$> Chunker.chunk_text (S fuel) text chunk_size overlap = Some []) /\
  (text <> ""%string ->
     forall fuel, Chunker.chunk_text fuel text chunk_size overlap = None).
Proof.
  intros Hov. split.
  - intros -> fuel. reflexivity.
  - intros Hne fuel. unfold Chunker.chunk_text.
    rewrite chunk_text_loop_diverges; [done|lia|lia|].
    destruct text; [done|]. unfold py_len. simpl. lia.
Qed.

Lemma chunk_text_overlap_ge_size_witness :
  Chunker.chunk_text 1000 "abc" 2 3 = None /\
  fst <$> Chunker.chunk_text 1 "" 2 3 = Some [].
Proof.
  split.
  - apply (chunk_text_overlap_ge_size "abc" 2 3).
    + lia.
    + discriminate.
  - apply (chunk_text_overlap_ge_size "" 2 3).
    + lia.
    + reflexivity.
Defined.

(** ** Running the monad *)

(** Unfolds the monad's combinators and the primitive actions, leaving the
    calls of the modelled functions in place. *)
Ltac run_m :=
  cbv beta iota zeta delta
    [bind ret raise lift try_except get_store set_index set_documents
     logger logger_info logger_warning logger_error];
  cbn [fst snd store fs logs embedding_model_name embedding_model dimension
       index documents].

(** ** The store: [add_documents] *)

(** The records appended for [texts], the first one at position [i] of the
    call's [texts]. *)
Lemma append_documents_run (metadata : option (list (gmap string PyVal)))
    (texts : list string) :
  forall (i : nat) (w : World),
    VectorStore.append_documents metadata i texts w
    = (Ret tt,
       MkWorld
         (MkStore (embedding_model_name (store w)) (embedding_model (store w))
            (dimension (store w)) (index (store w))
            (documents (store w)
             ++ imap (fun j t => MkDoc t (VectorStore.doc_metadata metadata (i + j))) texts))
         (fs w) (logs w)).
Proof.
  induction texts as [|t ts IH]; intros i w.
  - destruct w as [[] ? ?]. simpl. by rewrite app_nil_r.
  - simpl. run_m. rewrite IH. simpl. rewrite <- app_assoc. simpl.
    rewrite Nat.add_0_r. do 5 f_equal.
    apply imap_ext. intros j x _. simpl. do 2 f_equal. lia.
Qed.

Lemma encode_length (model : SentenceTransformer) (texts : list string) :
  forall vs, encode model texts = Ret vs -> length vs = length texts.
Proof.
  induction texts as [|t ts IH]; intros vs; simpl.
  - by intros [= <-].
  - destruct (embed model t); [|done].
    destruct (encode model ts); [|done].
    intros [= <-]. simpl. f_equal. by apply IH.
Qed.

Lemma encode_embed (model : SentenceTransformer) (texts : list string) :
  forall vs, encode model texts = Ret vs -> map (embed model) texts = map Ret vs.
Proof.
  induction texts as [|t ts IH]; intros vs; simpl.
  - by intros [= <-].
  - destruct (embed model t) eqn:Et; [|done].
    destruct (encode model ts); [|done].
    intros [= <-]. simpl. f_equal. by apply IH.
Qed.

(** The four ways a call of [add_documents] ends. *)
Lemma add_documents_run (texts : list string)
    (metadata : option (list (gmap string PyVal))) (w : World) :
  let s := store w in
  let started :=
    logs w ++ [MkLog INFO ("Generating embeddings for " +:+ pretty (length texts)
                           +:+ " documents")] in
  match texts with
  | [] =>
      VectorStore.add_documents texts metadata w
      = (Ret tt, MkWorld s (fs w) (logs w ++ [MkLog WARNING "No texts to add"]))
  | _ =>
      match encode (embedding_model s) texts with
      | Raise e =>
          VectorStore.add_documents texts metadata w
          = (Raise e, MkWorld s (fs w) started)
      | Ret vs =>
          if Faiss.has_width (Faiss.d (index s)) vs then
            (VectorStore.add_documents texts metadata w).1 = Ret tt /\
            index (store (VectorStore.add_documents texts metadata w).2)
              = Faiss.MkIndex (Faiss.d (index s)) (Faiss.xb (index s) ++ vs) /\
            documents (store (VectorStore.add_documents texts metadata w).2)
              = documents s
                ++ imap (fun j t => MkDoc t (VectorStore.doc_metadata metadata j)) texts /\
            embedding_model (store (VectorStore.add_documents texts metadata w).2)
              = embedding_model s /\
            dimension (store (VectorStore.add_documents texts metadata w).2)
              = dimension s /\
            embedding_model_name (store (VectorStore.add_documents texts metadata w).2)
              = embedding_model_name s /\
            fs (VectorStore.add_documents texts metadata w).2 = fs w
          else
            VectorStore.add_documents texts metadata w
            = (Raise (MkExn AssertionError ""), MkWorld s (fs w) started)
      end
  end.
Proof.
  destruct w as [s fsys lg]. cbv zeta. simpl store.
  destruct texts as [|t ts]; [reflexivity|].
  unfold VectorStore.add_documents. run_m.
  destruct (encode (embedding_model s) (t :: ts)) as [vs|e]; [|reflexivity].
  unfold Faiss.add.
  destruct (Faiss.has_width (Faiss.d (index s)) vs); [|reflexivity].
  rewrite append_documents_run. run_m. by split_and!.
Qed.

(** C6 as stated fails: a metadata list shorter than the texts is not
    rejected. Two texts with one metadata record are both stored, the second
    with an empty record. *)
Lemma add_documents_short_metadata_accepted :
  let r := VectorStore.add_documents ["a"; "bb"]%string
             (Some [Examples.one_record]) Examples.fresh in
  r.1 = Ret tt /\
  documents (store r.2) = [MkDoc "a" Examples.one_record; MkDoc "bb" ∅] /\
  Faiss.xb (index (store r.2)) = [[1]; [2]] /\
  documents (store Examples.fresh) = [].
Proof. cbv zeta. split_and!; reflexivity. Qed.

(** C6, amended. [add_documents] never compares the lengths of [texts] and
    [metadata]: once the embeddings have the index's width, it appends one
    row per text, the [i]-th with [metadata[i]] when the list is non-empty
    and has an [i]-th element and with an empty record otherwise. A call
    that raises (the embedder failed, or the embeddings' width differs from
    the index's) leaves the stored vectors and records exactly as they
    were; a wrong width always raises. An empty [texts] is a no-op that
    logs a warning. *)
Theorem add_documents_outcomes (texts : list string)
    (metadata : option (list (gmap string PyVal))) (w : World) :
  let r := VectorStore.add_documents texts metadata w in
  (texts = [] ->
     r = (Ret tt, MkWorld (store w) (fs w)
                    (logs w ++ [MkLog WARNING "No texts to add"]))) /\
  (forall e, r.1 = Raise e -> store r.2 = store w) /\
  (forall vs, texts <> [] ->
     encode (embedding_model (store w)) texts = Ret vs ->
     Faiss.has_width (Faiss.d (index (store w))) vs = false ->
     r.1 = Raise (MkExn AssertionError "")) /\
  (forall vs, texts <> [] ->
     encode (embedding_model (store w)) texts = Ret vs ->
     Faiss.has_width (Faiss.d (index (store w))) vs = true ->
     r.1 = Ret tt /\
     Faiss.xb (index (store r.2)) = Faiss.xb (index (store w)) ++ vs /\
     documents (store r.2)
       = documents (store w)
         ++ imap (fun i t => MkDoc t (VectorStore.doc_metadata metadata i)) texts).
Proof.
  cbv zeta. pose proof (add_documents_run texts metadata w) as Hrun.
  cbv zeta in Hrun. destruct texts as [|t ts].
  - rewrite Hrun. by split_and!.
  - destruct (encode (embedding_model (store w)) (t :: ts)) as [vs|e] eqn:Henc.
    + destruct (Faiss.has_width (Faiss.d (index (store w))) vs) eqn:Hw.
      * destruct Hrun as (Hret & Hix & Hdocs & _).
        split_and!; [done | congruence | congruence |].
        intros vs' _ [= <-] _. by rewrite Hix, Hdocs.
      * rewrite Hrun. split_and!; [done | done | | congruence].
        by intros vs' _ [= <-].
    + rewrite Hrun. by split_and!.
Qed.

Lemma add_documents_outcomes_witness :
  let r := VectorStore.add_documents ["a"; "bb"; "ccc"]%string
             (Some [Examples.one_record]) Examples.two_rows in
  r.1 = Ret tt /\
  Faiss.xb (index (store r.2)) = [[1]; [3]] ++ [[1]; [2]; [3]] /\
  documents (store r.2)
    = [MkDoc "a" ∅; MkDoc "bbb" ∅]
      ++ [MkDoc "a" Examples.one_record; MkDoc "bb" ∅; MkDoc "ccc" ∅].
Proof.
  apply (add_documents_outcomes ["a"; "bb"; "ccc"]%string
           (Some [Examples.one_record]) Examples.two_rows).
  - discriminate.
  - reflexivity.
  - reflexivity.
Defined.

(** A wrong width in numbers: the index has dimension 2, the embeddings
    have width 1; the call raises and the one stored row stays alone. *)
Example add_documents_wrong_width_rejected :
  let r := VectorStore.add_documents ["bb"%string] None Examples.widened in
  r.1 = Raise (MkExn AssertionError "") /\
  store r.2 = store Examples.widened.
Proof. cbv zeta. split; reflexivity. Qed.

(** ** The store: [search], [get_stats], [load], [save], [clear] *)

(** C10. On an empty store, [search] returns the empty list for every query
    and every [k] (also [k <= 0]): it does not raise, and it changes neither
    the store nor the files; [get_stats] reports 0 stored chunks
    ([total_documents] counts the records) and an index size of 0. *)
Theorem search_empty_store (w : World) (query : string) (k : Z) :
  VectorStore.is_empty (store w) ->
  (VectorStore.search query k w).1 = Ret [] /\
  store (VectorStore.search query k w).2 = store w /\
  fs (VectorStore.search query k w).2 = fs w /\
  exists stats,
    (VectorStore.get_stats w).1 = Ret stats /\
    VectorStore.total_documents stats = 0 /\
    VectorStore.index_size stats = 0.
Proof.
  intros [Hxb Hdocs]. unfold VectorStore.search, VectorStore.get_stats. run_m.
  unfold Faiss.ntotal. rewrite Hxb, Hdocs. simpl. split_and!; try done.
  by eexists.
Qed.

Lemma search_empty_store_witness :
  (VectorStore.search "anything" 5 Examples.fresh).1 = Ret [] /\
  (VectorStore.search "anything" (-3) Examples.fresh).1 = Ret [].
Proof.
  split.
  - apply (search_empty_store Examples.fresh "anything" 5). split; reflexivity.
  - apply (search_empty_store Examples.fresh "anything" (-3)). split; reflexivity.
Defined.

(** The ways a call of [load] ends, by what the two paths hold. *)
Lemma load_run (index_path documents_path : string) (w : World) :
  let s := store w in
  let r := VectorStore.load index_path documents_path w in
  match files (fs w) !! index_path, files (fs w) !! documents_path with
  | None, _ | _, None =>
      r = (Ret tt, MkWorld s (fs w)
                     (logs w ++ [MkLog WARNING "Vector store files not found"]))
  | Some (IndexFile ix), Some (PickleFile docs) =>
      r.1 = Ret tt /\
      store r.2 = MkStore (embedding_model_name s) (embedding_model s)
                    (dimension s) ix docs /\
      fs r.2 = fs w
  | Some (IndexFile ix), Some _ =>
      r.1 = Raise (MkExn UnpicklingError "invalid load key") /\
      store r.2 = MkStore (embedding_model_name s) (embedding_model s)
                    (dimension s) ix (documents s) /\
      fs r.2 = fs w
  | Some _, Some _ =>
      r.1 = Raise (MkExn ParserError ("not a faiss index: " +:+ index_path)) /\
      store r.2 = s /\
      fs r.2 = fs w
  end.
Proof.
  destruct w as [s fsys lg]. cbv zeta.
  unfold VectorStore.load, path_exists, read_index, pickle_load. run_m.
  destruct (files fsys !! index_path) as [fi|] eqn:Hi;
    destruct (files fsys !! documents_path) as [fd|] eqn:Hd;
    cbn; rewrite ?Hi; try done.
  - destruct fi; cbn; rewrite ?Hd; try done.
    destruct fd; cbn; by destruct s.
  - by destruct fi.
Qed.

(** C5 as stated fails: [load] compares no row counts. An index artifact of
    two rows and a documents artifact of one record are both activated and
    the call returns normally; and when the documents artifact is not a
    pickle, the index has already been replaced when the exception is
    raised, the records staying as they were. *)
Lemma load_activates_mismatched_artifacts :
  let r := VectorStore.load "idx" "docs" Examples.mismatched in
  let r' := VectorStore.load "idx" "docs" Examples.torn in
  (r.1 = Ret tt /\
   Faiss.ntotal (index (store r.2)) = 2 /\
   Z.of_nat (length (documents (store r.2))) = 1) /\
  (r'.1 = Raise (MkExn UnpicklingError "invalid load key") /\
   Faiss.ntotal (index (store r'.2)) = 2 /\
   documents (store r'.2) = documents (store Examples.torn) /\
   Faiss.ntotal (index (store Examples.torn)) = 0).
Proof. cbv zeta. split_and!; reflexivity. Qed.

(** C5, amended. If either artifact is missing, [load] leaves the store and
    the files as they were, logs a warning and returns normally. When both
    artifacts are read, [load] installs the index and the records exactly as
    read, without comparing their row counts. When the index artifact
    exists and cannot be read, [load] raises and leaves the store as it
    was. *)
Theorem load_outcomes (index_path documents_path : string) (w : World) :
  let r := VectorStore.load index_path documents_path w in
  (files (fs w) !! index_path = None \/ files (fs w) !! documents_path = None ->
     r = (Ret tt, MkWorld (store w) (fs w)
                    (logs w ++ [MkLog WARNING "Vector store files not found"]))) /\
  (forall ix docs,
     files (fs w) !! index_path = Some (IndexFile ix) ->
     files (fs w) !! documents_path = Some (PickleFile docs) ->
     r.1 = Ret tt /\
     index (store r.2) = ix /\
     documents (store r.2) = docs /\
     embedding_model (store r.2) = embedding_model (store w) /\
     dimension (store r.2) = dimension (store w)) /\
  (forall f,
     files (fs w) !! index_path = Some f ->
     (forall ix, f <> IndexFile ix) ->
     is_Some (files (fs w) !! documents_path) ->
     exists e, r.1 = Raise e /\ store r.2 = store w).
Proof.
  cbv zeta. pose proof (load_run index_path documents_path w) as Hrun.
  cbv zeta in Hrun. split_and!.
  - intros [Hi|Hd].
    + by rewrite Hi in Hrun.
    + rewrite Hd in Hrun. by destruct (files (fs w) !! index_path) as [[]|].
  - intros ix docs Hi Hd. rewrite Hi, Hd in Hrun.
    destruct Hrun as (-> & -> & _). done.
  - intros f Hi Hf [fd Hd]. rewrite Hi, Hd in Hrun.
    destruct f as [ix| |]; [by destruct (Hf ix)| |];
      destruct Hrun as (-> & -> & _); eauto.
Qed.

Lemma load_outcomes_witness :
  VectorStore.load "idx" "docs" Examples.fresh
  = (Ret tt, MkWorld (store Examples.fresh) (fs Examples.fresh)
               (logs Examples.fresh ++ [MkLog WARNING "Vector store files not found"])).
Proof.
  apply (load_outcomes "idx" "docs" Examples.fresh).
  left. reflexivity.
Defined.

(** [search] reads the store and the files and only appends to the log. *)
Lemma search_preserves (query : string) (k : Z) (w : World) :
  store (VectorStore.search query k w).2 = store w /\
  fs (VectorStore.search query k w).2 = fs w.
Proof.
  unfold VectorStore.search. run_m.
  destruct (Faiss.ntotal (index (store w)) =? 0); [done|].
  destruct (encode (embedding_model (store w)) [query]); [|done].
  destruct (Faiss.search (index (store w)) a k) as [DI|]; [|done].
  destruct (list_getitem DI.2 0) as [indices0|]; [|done].
  destruct (list_getitem DI.1 0) as [distances0|]; [|done].
  by destruct (VectorStore.collect_results (documents (store w)) distances0 0 indices0 []).
Qed.

(** The three ways a call of [save] ends; the store is never touched. *)
Lemma save_run (index_path documents_path : string) (w : World) :
  let r := VectorStore.save index_path documents_path w in
  let with_index := <[index_path := IndexFile (index (store w))]> (files (fs w)) in
  store r.2 = store w /\
  readonly (fs r.2) = readonly (fs w) /\
  if bool_decide (index_path ∈ readonly (fs w)) then
    r.1 = Raise (MkExn PermissionError ("Permission denied: " +:+ index_path)) /\
    files (fs r.2) = files (fs w)
  else if bool_decide (documents_path ∈ readonly (fs w)) then
    r.1 = Raise (MkExn PermissionError ("Permission denied: " +:+ documents_path)) /\
    files (fs r.2) = with_index
  else
    r.1 = Ret tt /\
    files (fs r.2) = <[documents_path := PickleFile (documents (store w))]> with_index.
Proof.
  destruct w as [s fsys lg]. cbv zeta.
  unfold VectorStore.save, write_file. run_m.
  destruct (bool_decide (index_path ∈ readonly fsys)); cbn; [done|].
  destruct (bool_decide (documents_path ∈ readonly fsys)); cbn; done.
Qed.

Lemma clear_run (w : World) :
  (VectorStore.clear w).1 = Ret tt /\
  index (store (VectorStore.clear w).2) = Faiss.new (dimension (store w)) /\
  documents (store (VectorStore.clear w).2) = [] /\
  embedding_model (store (VectorStore.clear w).2) = embedding_model (store w) /\
  fs (VectorStore.clear w).2 = fs w.
Proof. done. Qed.

(** ** Row alignment *)

Lemma imap_text (metadata : option (list (gmap string PyVal))) (texts : list string) :
  forall i,
    map text (imap (fun j t => MkDoc t (VectorStore.doc_metadata metadata (i + j))) texts)
    = texts.
Proof.
  induction texts as [|t ts IH]; intros i; [done|].
  rewrite imap_cons. simpl. f_equal.
  rewrite <- (IH (S i)) at 2. f_equal. apply imap_ext.
  intros j x _. simpl. do 2 f_equal. lia.
Qed.

Lemma add_documents_aligned (texts : list string)
    (metadata : option (list (gmap string PyVal))) (w : World) :
  VectorStore.aligned (store w) ->
  VectorStore.aligned (store (VectorStore.add_documents texts metadata w).2).
Proof.
  intros Hal. pose proof (add_documents_run texts metadata w) as Hrun.
  cbv zeta in Hrun. destruct texts as [|t ts]; [by rewrite Hrun|].
  destruct (encode (embedding_model (store w)) (t :: ts)) as [vs|e] eqn:Henc;
    [|by rewrite Hrun].
  destruct (Faiss.has_width (Faiss.d (index (store w))) vs); [|by rewrite Hrun].
  destruct Hrun as (_ & Hix & Hdocs & Hmodel & _).
  unfold VectorStore.aligned in *. rewrite Hix, Hdocs, Hmodel.
  cbn [Faiss.xb]. rewrite !map_app, Hal. f_equal.
  rewrite <- (encode_embed _ _ _ Henc).
  pose proof (imap_text metadata (t :: ts) 0) as Htext.
  rewrite <- Htext at 2. by rewrite map_map.
Qed.

Lemma load_aligned (index_path documents_path : string) (w : World) :
  VectorStore.aligned (store w) ->
  Trace.load_safe (store w) (fs w) index_path documents_path ->
  VectorStore.aligned (store (VectorStore.load index_path documents_path w).2).
Proof.
  intros Hal Hsafe. pose proof (load_run index_path documents_path w) as Hrun.
  cbv zeta in Hrun. unfold Trace.load_safe in Hsafe.
  destruct (files (fs w) !! index_path) as [fi|];
    destruct (files (fs w) !! documents_path) as [fd|].
  - destruct fi, fd; try done; destruct Hrun as (_ & -> & _); done.
  - destruct fi; by rewrite Hrun.
  - by rewrite Hrun.
  - by rewrite Hrun.
Qed.

(** A freshly constructed store is aligned: it holds nothing. *)
Lemma new_aligned (name : string) (model : SentenceTransformer) :
  VectorStore.aligned (VectorStore.new name model).
Proof. reflexivity. Qed.

(** One operation keeps the rows aligned, a [Load] provided its artifacts
    are safe. *)
Lemma step_aligned (op : Trace.Op) (w : World) :
  VectorStore.aligned (store w) ->
  Trace.loads_safe [op] w ->
  VectorStore.aligned (store (Trace.step op w)).
Proof.
  intros Hal [Hsafe _]. destruct op; simpl.
  - by apply add_documents_aligned.
  - by rewrite (proj1 (search_preserves _ _ _)).
  - by rewrite (proj1 (save_run _ _ _)).
  - by apply load_aligned.
  - done.
Qed.

(** C2 as stated fails. Starting from a fresh, aligned store over an empty
    file system, five store operations end with one stored vector and two
    metadata records: [load] takes the index saved first and the records
    saved second, and installs them unchecked. *)
Lemma alignment_broken_by_crossed_load :
  let w := Trace.run Examples.crossed_trace Examples.fresh in
  VectorStore.aligned (store Examples.fresh) /\
  Faiss.ntotal (index (store w)) = 1 /\
  Z.of_nat (length (documents (store w))) = 2 /\
  ~ VectorStore.aligned (store w).
Proof.
  cbv zeta. split_and!; try reflexivity.
  intros H. vm_compute in H. discriminate H.
Qed.

(** C2, amended. Row alignment (as many stored vectors as metadata records,
    the i-th vector being the embedding of the i-th record's text) is kept
    by every sequence of [add_documents], [search], [save], [load] and
    [clear] in which each [load] finds safe artifacts: one of the two
    missing, or an unreadable index artifact, or an index and a record list
    that are aligned with each other. [load] itself checks nothing. *)
Theorem alignment_invariant (ops : list Trace.Op) :
  forall w : World,
    VectorStore.aligned (store w) ->
    Trace.loads_safe ops w ->
    VectorStore.aligned (store (Trace.run ops w)).
Proof.
  induction ops as [|op ops IH]; intros w Hal Hsafe; [done|].
  destruct Hsafe as [Hop Hrest]. simpl. apply IH; [|done].
  apply step_aligned; [done|]. by split.
Qed.

Lemma alignment_invariant_witness :
  VectorStore.aligned (store (Trace.run Examples.reload_trace Examples.fresh)).
Proof.
  apply (alignment_invariant Examples.reload_trace Examples.fresh).
  - reflexivity.
  - vm_compute. repeat split.
Defined.

(** What a successful [save] of an aligned store leaves at two distinct
    paths is safe to load. *)
Lemma save_then_load_safe (index_path documents_path : string) (w : World) :
  VectorStore.aligned (store w) ->
  index_path <> documents_path ->
  (VectorStore.save index_path documents_path w).1 = Ret tt ->
  let w' := (VectorStore.save index_path documents_path w).2 in
  Trace.load_safe (store w') (fs w') index_path documents_path.
Proof.
  intros Hal Hne Hret. cbv zeta.
  pose proof (save_run index_path documents_path w) as (Hstore & _ & Hrun).
  cbv zeta in Hrun.
  destruct (bool_decide (index_path ∈ readonly (fs w)));
    [destruct Hrun; congruence|].
  destruct (bool_decide (documents_path ∈ readonly (fs w)));
    [destruct Hrun; congruence|].
  destruct Hrun as [_ Hfiles]. unfold Trace.load_safe.
  rewrite Hfiles, Hstore.
  rewrite lookup_insert_ne, lookup_insert_eq, lookup_insert_eq by done.
  exact Hal.
Qed.

(** ** Persistence round trip *)

(** The result of [search] is a function of the index, the records and the
    embedding of the query. *)
Lemma search_depends (query : string) (k : Z) (w1 w2 : World) :
  index (store w1) = index (store w2) ->
  documents (store w1) = documents (store w2) ->
  embed (embedding_model (store w1)) query = embed (embedding_model (store w2)) query ->
  (VectorStore.search query k w1).1 = (VectorStore.search query k w2).1.
Proof.
  intros Hix Hdocs Hq. unfold VectorStore.search. run_m.
  rewrite Hix, Hdocs. cbn [encode]. rewrite Hq.
  destruct (Faiss.ntotal (index (store w2)) =? 0); [done|].
  destruct (embed (embedding_model (store w2)) query) as [v|]; [|done].
  destruct (Faiss.search (index (store w2)) [v] k) as [DI|]; [|done].
  destruct (list_getitem DI.2 0) as [indices0|]; [|done].
  destruct (list_getitem DI.1 0) as [distances0|]; [|done].
  by destruct (VectorStore.collect_results (documents (store w2)) distances0 0 indices0 []).
Qed.

(** Loading what a successful [save] wrote: the saved index and records
    replace those of the loading store, whatever they were. *)
Lemma save_then_load_run (w w' : World) (index_path documents_path : string) :
  (VectorStore.save index_path documents_path w).1 = Ret tt ->
  index_path <> documents_path ->
  files (fs w') = files (fs (VectorStore.save index_path documents_path w).2) ->
  let r := VectorStore.load index_path documents_path w' in
  r.1 = Ret tt /\
  store r.2 = MkStore (embedding_model_name (store w')) (embedding_model (store w'))
                (dimension (store w')) (index (store w)) (documents (store w)) /\
  fs r.2 = fs w'.
Proof.
  intros Hret Hne Hw'. cbv zeta.
  pose proof (save_run index_path documents_path w) as (_ & _ & Hsave).
  cbv zeta in Hsave.
  destruct (bool_decide (index_path ∈ readonly (fs w)));
    [destruct Hsave; congruence|].
  destruct (bool_decide (documents_path ∈ readonly (fs w)));
    [destruct Hsave; congruence|].
  destruct Hsave as [_ Hfiles]. rewrite Hfiles in Hw'.
  pose proof (load_run index_path documents_path w') as Hload.
  cbv zeta in Hload. rewrite Hw' in Hload.
  rewrite lookup_insert_ne, !lookup_insert_eq in Hload by done.
  exact Hload.
Qed.

(** C7 as stated fails: a matching dimension does not fix the query vector.
    The store of three chunks is saved and loaded into a fresh store whose
    model has the same dimension 1 and embeds a text to twice its length:
    the query that matched chunk 2 at distance 1 before the save matches it
    at distance 49 after the load. *)
Lemma reload_under_another_model :
  let saved := (VectorStore.save "i" "d" Examples.ingested).2 in
  let r := VectorStore.load "i" "d"
             (with_store (VectorStore.new "twice" Examples.twice_model) saved) in
  let chunk2 :=
    RAGEngine.chunk_metadata
      (DocumentProcessor.MkDocData "doc.txt" "a|bbb|ccccc" ".txt") 2 in
  dimension (store r.2) = dimension (store Examples.ingested) /\
  r.1 = Ret tt /\
  (VectorStore.search "cccccc" 1 Examples.ingested).1 = Ret [("ccccc"%string, 1, chunk2)] /\
  (VectorStore.search "cccccc" 1 r.2).1 = Ret [("ccccc"%string, 49, chunk2)].
Proof. cbv zeta. split_and!; reflexivity. Qed.

(** C7, amended. When [save] returns normally (its two paths being
    distinct), [load] of the same two paths into a freshly constructed store
    returns normally, and for every query that the fresh store's model
    embeds to the same vector as the saved store's model (so whenever both
    are built on the same model) and every [k], [search] on the reloaded
    store gives the result, hits and distances alike, that it gave on the
    saved store; the reloaded store reports the saved number of records and
    of index rows. *)
Theorem save_load_roundtrip (w : World) (index_path documents_path name' : string)
    (model' : SentenceTransformer) (query : string) (k : Z) :
  (VectorStore.save index_path documents_path w).1 = Ret tt ->
  index_path <> documents_path ->
  embed model' query = embed (embedding_model (store w)) query ->
  let saved := (VectorStore.save index_path documents_path w).2 in
  let r := VectorStore.load index_path documents_path
             (with_store (VectorStore.new name' model') saved) in
  r.1 = Ret tt /\
  (VectorStore.search query k r.2).1 = (VectorStore.search query k w).1 /\
  exists stats,
    (VectorStore.get_stats r.2).1 = Ret stats /\
    VectorStore.total_documents stats = Z.of_nat (length (documents (store w))) /\
    VectorStore.index_size stats = Faiss.ntotal (index (store w)).
Proof.
  intros Hret Hne Hq. cbv zeta.
  set (saved := (VectorStore.save index_path documents_path w).2).
  destruct (save_then_load_run w (with_store (VectorStore.new name' model') saved)
              index_path documents_path Hret Hne eq_refl) as (Hok & Hstore & _).
  split_and!.
  - done.
  - apply search_depends; by rewrite Hstore.
  - eexists. split; [reflexivity|].
    unfold VectorStore.get_stats. run_m. cbn. by rewrite Hstore.
Qed.

Lemma save_load_roundtrip_witness :
  let saved := (VectorStore.save "i" "d" Examples.ingested).2 in
  let r := VectorStore.load "i" "d"
             (with_store (VectorStore.new "len" Examples.len_model) saved) in
  r.1 = Ret tt /\
  (VectorStore.search "cccccc" 1 r.2).1
    = (VectorStore.search "cccccc" 1 Examples.ingested).1 /\
  exists stats,
    (VectorStore.get_stats r.2).1 = Ret stats /\
    VectorStore.total_documents stats
      = Z.of_nat (length (documents (store Examples.ingested))) /\
    VectorStore.index_size stats = Faiss.ntotal (index (store Examples.ingested)).
Proof.
  apply (save_load_roundtrip Examples.ingested "i" "d" "len" Examples.len_model
           "cccccc" 1).
  - reflexivity.
  - discriminate.
  - reflexivity.
Defined.

(** The scenario of one document of three chunks, in numbers: before the
    save and after the reload the query matches chunk 2 at distance 1, and
    the reloaded store counts 3 records and 3 index rows. *)
Example three_chunks_reloaded :
  let saved := (VectorStore.save "i" "d" Examples.ingested).2 in
  let r := VectorStore.load "i" "d"
             (with_store (VectorStore.new "len" Examples.len_model) saved) in
  let chunk2 :=
    RAGEngine.chunk_metadata
      (DocumentProcessor.MkDocData "doc.txt" "a|bbb|ccccc" ".txt") 2 in
  (VectorStore.search "cccccc" 1 Examples.ingested).1 = Ret [("ccccc"%string, 1, chunk2)] /\
  (VectorStore.search "cccccc" 1 r.2).1 = Ret [("ccccc"%string, 1, chunk2)] /\
  (VectorStore.get_stats r.2).1
    = Ret (VectorStore.MkStats 3 3 1 "len").
Proof. cbv zeta. split_and!; reflexivity. Qed.

Lemma append_inj_l (p a b : string) : p +:+ a = p +:+ b -> a = b.
Proof. induction p as [|c p IH]; simpl; [done|]. intros [= H]. by apply IH. Qed.

(** The engine's two artifact paths differ. *)
Lemma engine_paths_distinct (c : Collaborators) :
  RAGEngine.index_path c <> RAGEngine.docs_path c.
Proof.
  unfold RAGEngine.index_path, RAGEngine.docs_path. intros H.
  by apply append_inj_l in H.
Qed.

(** Restart: an engine constructed over the files that [save] wrote holds
    the saved index and records, and answers a query as the saved store
    did. *)
Lemma engine_restart (c : Collaborators) (w : World) (name : string)
    (model : SentenceTransformer) (query : string) (k : Z) :
  (VectorStore.save (RAGEngine.index_path c) (RAGEngine.docs_path c) w).1 = Ret tt ->
  embed model query = embed (embedding_model (store w)) query ->
  let saved := (VectorStore.save (RAGEngine.index_path c) (RAGEngine.docs_path c) w).2 in
  let restarted := (RAGEngine.__init__ c name model saved).2 in
  index (store restarted) = index (store w) /\
  documents (store restarted) = documents (store w) /\
  (VectorStore.search query k restarted).1 = (VectorStore.search query k w).1.
Proof.
  intros Hret Hq. cbv zeta.
  set (saved := (VectorStore.save _ _ w).2).
  set (w' := MkWorld (VectorStore.new name model) (fs saved)
               (logs saved ++ VectorStore.init_logs (VectorStore.new name model))).
  destruct (save_then_load_run w w' (RAGEngine.index_path c) (RAGEngine.docs_path c)
              Hret (engine_paths_distinct c) eq_refl) as (Hok & Hstore & _).
  assert (Hrestart :
    store (RAGEngine.__init__ c name model saved).2
    = store (VectorStore.load (RAGEngine.index_path c) (RAGEngine.docs_path c) w').2).
  { unfold RAGEngine.__init__, RAGEngine._load_vector_store, VectorStore.__init__.
    run_m. fold w'.
    by destruct (VectorStore.load _ _ w') as [[[]|e] w'']. }
  split_and!.
  - by rewrite Hrestart, Hstore.
  - by rewrite Hrestart, Hstore.
  - apply search_depends; rewrite Hrestart, Hstore; done.
Qed.

(** ** Ingestion *)

Ltac extractor_preserves :=
  intros; run_m; unfold open_file;
  repeat (case_match; simplify_eq; cbn in *; try done).

Lemma extractors_preserve (ps : Parsers) (ext : string) (extractor : string -> M string) :
  DocumentProcessor.extractors ps ext = Some extractor ->
  forall (file_path : string) (w : World),
    store (extractor file_path w).2 = store w /\ fs (extractor file_path w).2 = fs w.
Proof.
  unfold DocumentProcessor.extractors. intros Hext file_path w.
  repeat (case_match; [injection Hext as <-|]); [..|done].
  - unfold DocumentProcessor.extract_text_from_pdf. extractor_preserves.
  - unfold DocumentProcessor.extract_text_from_docx. extractor_preserves.
  - unfold DocumentProcessor.extract_text_from_excel. extractor_preserves.
  - unfold DocumentProcessor.extract_text_from_excel. extractor_preserves.
  - unfold DocumentProcessor.extract_text_from_csv. extractor_preserves.
  - unfold DocumentProcessor.extract_text_from_txt. extractor_preserves.
Qed.

Lemma process_document_preserves (ps : Parsers) (file_path : string) (w : World) :
  store (DocumentProcessor.process_document ps file_path w).2 = store w /\
  fs (DocumentProcessor.process_document ps file_path w).2 = fs w.
Proof.
  unfold DocumentProcessor.process_document.
  destruct (DocumentProcessor.extractors ps _) as [extractor|] eqn:Hext; [|done].
  pose proof (extractors_preserve _ _ _ Hext file_path w) as [Hs Hf].
  run_m. by destruct (extractor file_path w) as [[text|e] w'].
Qed.

(** [_save_vector_store] swallows every failure of [save]. *)
Lemma save_vector_store_run (c : Collaborators) (w : World) :
  (RAGEngine._save_vector_store c w).1 = Ret tt /\
  store (RAGEngine._save_vector_store c w).2 = store w.
Proof.
  pose proof (save_run (RAGEngine.index_path c) (RAGEngine.docs_path c) w) as (Hs & _).
  cbv zeta in Hs. unfold RAGEngine._save_vector_store. run_m.
  by destruct (VectorStore.save _ _ w) as [[[]|e] w'].
Qed.

(** C8. [ingest_document] never raises: it always returns a result
    dictionary. Whenever that dictionary is the error one, the store (index
    and records) and the files are exactly as before the call. An
    unsupported file extension, a failing extraction, a failing splitter and
    a failing embedder each give the error dictionary, carrying the
    exception's message. *)
Theorem ingest_document_atomic (c : Collaborators) (file_path : string) (w : World) :
  let r := RAGEngine.ingest_document c file_path w in
  let w1 := (logger_info ("Ingesting document: " +:+ file_path) w).2 in
  let extracted := (DocumentProcessor.process_document (parsers c) file_path w1).1 in
  let ext := PyPath.lower (PyPath.suffix file_path) in
  (exists res, r.1 = Ret res) /\
  (forall message,
     r.1 = Ret (RAGEngine.IngestError message) ->
     RAGEngine.status (RAGEngine.IngestError message) = "error"%string /\
     store r.2 = store w /\ fs r.2 = fs w) /\
  (DocumentProcessor.extractors (parsers c) ext = None ->
     r.1 = Ret (RAGEngine.IngestError ("Unsupported file type: " +:+ ext))) /\
  (forall e, extracted = Raise e -> r.1 = Ret (RAGEngine.IngestError (exn_str e))) /\
  (forall doc_data e,
     extracted = Ret doc_data ->
     split_text c (DocumentProcessor.doc_text doc_data) = Raise e ->
     r.1 = Ret (RAGEngine.IngestError (exn_str e))) /\
  (forall doc_data chunks e,
     extracted = Ret doc_data ->
     split_text c (DocumentProcessor.doc_text doc_data) = Ret chunks ->
     chunks <> [] ->
     encode (embedding_model (store w)) chunks = Raise e ->
     r.1 = Ret (RAGEngine.IngestError (exn_str e))).
Proof.
  cbv zeta.
  set (w1 := (logger_info ("Ingesting document: " +:+ file_path) w).2).
  assert (Hw1 : store w1 = store w /\ fs w1 = fs w) by done.
  destruct Hw1 as [Hs1 Hf1].
  pose proof (process_document_preserves (parsers c) file_path w1) as [Hs2 Hf2].
  assert (Hunsupported :
    DocumentProcessor.extractors (parsers c) (PyPath.lower (PyPath.suffix file_path)) = None ->
    DocumentProcessor.process_document (parsers c) file_path w1
    = (Raise (MkExn ValueError ("Unsupported file type: "
                                +:+ PyPath.lower (PyPath.suffix file_path))), w1)).
  { intros Hnone. unfold DocumentProcessor.process_document. by rewrite Hnone. }
  unfold RAGEngine.ingest_document. run_m.
  change (MkWorld (store w) (fs w)
            (logs w ++ [MkLog INFO ("Ingesting document: " +:+ file_path)])) with w1.
  destruct (DocumentProcessor.process_document (parsers c) file_path w1)
    as [[doc_data|e1] w2] eqn:Hpd; cbn [fst snd] in *.
  2:{ cbn. split_and!; try done; try (by eauto).
      all: try solve [intros message _; split_and!; [done|congruence|congruence]].
      all: try solve [intros Hnone; specialize (Hunsupported Hnone); by simplify_eq].
      all: by intros e [= ->]. }
  assert (Hsupported :
    DocumentProcessor.extractors (parsers c) (PyPath.lower (PyPath.suffix file_path))
    <> None).
  { intros Hnone. by specialize (Hunsupported Hnone). }
  destruct (split_text c (DocumentProcessor.doc_text doc_data)) as [chunks|e2] eqn:Hsplit.
  2:{ cbn. split_and!; try done; try (by eauto).
      all: try solve [intros message _; split_and!; [done|congruence|congruence]].
      all: try solve [intros doc' e [= <-] He; rewrite Hsplit in He; by simplify_eq].
      all: intros doc' chunks' e [= <-] Hsp; rewrite Hsplit in Hsp; by simplify_eq. }
  set (md := Some (map (RAGEngine.chunk_metadata doc_data) (seq 0 (length chunks)))).
  pose proof (add_documents_run chunks md w2) as Hrun. cbv zeta in Hrun.
  assert (Hembed : forall e, chunks <> [] ->
            encode (embedding_model (store w)) chunks = Raise e ->
            VectorStore.add_documents chunks md w2
            = (Raise e, MkWorld (store w2) (fs w2)
                 (logs w2 ++ [MkLog INFO ("Generating embeddings for "
                                +:+ pretty (length chunks) +:+ " documents")]))).
  { intros e Hne Henc. rewrite <- Hs1, <- Hs2 in Henc.
    destruct chunks as [|t ts]; [done|]. by rewrite Henc in Hrun. }
  assert (Hunchanged : forall e w3,
            VectorStore.add_documents chunks md w2 = (Raise e, w3) ->
            store w3 = store w /\ fs w3 = fs w).
  { intros e w3 Hadd. rewrite Hadd in Hrun.
    destruct chunks as [|t ts]; [by simplify_eq|].
    destruct (encode (embedding_model (store w2)) (t :: ts)).
    - destruct (Faiss.has_width _ _); [by destruct Hrun|].
      simplify_eq. split; cbn; congruence.
    - simplify_eq. split; cbn; congruence. }
  destruct (VectorStore.add_documents chunks md w2) as [[[]|e3] w3] eqn:Hadd;
    cbn [fst snd] in *.
  - pose proof (save_vector_store_run c w3) as [Hsave _].
    destruct (RAGEngine._save_vector_store c w3) as [[[]|e4] w4]; [|done].
    cbn. split_and!; try done; try (by eauto).
    all: try solve [intros doc' e [= <-] He; rewrite Hsplit in He; by simplify_eq].
    all: intros doc' chunks' e [= <-] Hsp Hne Henc; rewrite Hsplit in Hsp;
      injection Hsp as <-; by specialize (Hembed e Hne Henc).
  - destruct (Hunchanged e3 w3 eq_refl) as [Hs3 Hf3].
    cbn. split_and!; try done; try (by eauto).
    all: try solve [intros doc' e [= <-] He; rewrite Hsplit in He; by simplify_eq].
    all: intros doc' chunks' e [= <-] Hsp Hne Henc; rewrite Hsplit in Hsp;
      injection Hsp as <-; specialize (Hembed e Hne Henc); by simplify_eq.
Qed.

Lemma ingest_document_atomic_witness :
  (RAGEngine.ingest_document Examples.collaborators "/kb/notes.md" Examples.kb_fresh).1
    = Ret (RAGEngine.IngestError "Unsupported file type: .md") /\
  (RAGEngine.ingest_document Examples.collaborators "/kb/gap.txt" Examples.kb_flaky).1
    = Ret (RAGEngine.IngestError "empty input") /\
  store (RAGEngine.ingest_document Examples.collaborators "/kb/gap.txt" Examples.kb_flaky).2
    = store Examples.kb_flaky.
Proof.
  split_and!.
  - apply (ingest_document_atomic Examples.collaborators "/kb/notes.md" Examples.kb_fresh).
    reflexivity.
  - apply (proj2 (proj2 (proj2 (proj2 (proj2
             (ingest_document_atomic Examples.collaborators "/kb/gap.txt"
                Examples.kb_flaky)))))
           (DocumentProcessor.MkDocData "gap.txt" "a||b" ".txt")
           ["a"; ""; "b"]%string (MkExn EmbeddingError "empty input")).
    + reflexivity.
    + reflexivity.
    + discriminate.
    + reflexivity.
  - apply (proj1 (proj2
             (ingest_document_atomic Examples.collaborators "/kb/gap.txt"
                Examples.kb_flaky)) "empty input").
    reflexivity.
Defined.

(** ** Queries *)

(** The outcome of [search] does not depend on the log. *)
Lemma search_ignores_logs (q : string) (k : Z) (w : World) (lg : list LogRecord) :
  (VectorStore.search q k (MkWorld (store w) (fs w) lg)).1
  = (VectorStore.search q k w).1.
Proof. by apply search_depends. Qed.

(** C9 as stated fails: an exception raised during retrieval leaves
    [RAGEngine.query] as it is. On a store of two rows whose embedder fails
    on the empty text, the query [""] raises the embedder's exception. *)
Lemma query_propagates_retrieval_failure :
  (RAGEngine.query "" None 5 Examples.flaky_two_rows).1
  = Raise (MkExn EmbeddingError "empty input").
Proof. reflexivity. Qed.

(** C9, amended. An exception raised by the retrieval step propagates out
    of [RAGEngine.query] unchanged, the store being left as it was; it is the
    service handler [RAGServiceServicer.Query] that catches it and answers
    with no source and [context_used = false]. When retrieval returns,
    [context_used] is (number of retrieved results > 0) and the sources are
    the results in search order, in the engine and in the handler alike. *)
Theorem query_retrieval_outcomes (q : string) (history : list (string * string))
    (k : Z) (w : World) :
  let hist := match history with [] => None | _ => Some history end in
  let k' := if 0 <? k then k else 5 in
  let request := RAGServiceServicer.MkQueryRequest q history k in
  (forall e, (VectorStore.search q k w).1 = Raise e ->
     (RAGEngine.query q hist k w).1 = Raise e /\
     store (RAGEngine.query q hist k w).2 = store w) /\
  (forall results, (VectorStore.search q k w).1 = Ret results ->
     exists ans,
       (RAGEngine.query q hist k w).1 = Ret ans /\
       RAGEngine.context_used ans = bool_decide (0 < length results)%nat /\
       RAGEngine.sources ans = map RAGEngine.source_of results) /\
  (forall e, (VectorStore.search q k' w).1 = Raise e ->
     (RAGServiceServicer.Query request w).1
     = Ret (RAGEngine.MkAnswer ("Error processing query: " +:+ exn_str e) [] false)) /\
  (forall results, (VectorStore.search q k' w).1 = Ret results ->
     exists ans,
       (RAGServiceServicer.Query request w).1 = Ret ans /\
       RAGEngine.context_used ans = bool_decide (0 < length results)%nat /\
       RAGEngine.sources ans = map RAGEngine.source_of results).
Proof.
  cbv zeta. split_and!.
  - intros e Hs. unfold RAGEngine.query, RAGEngine.retrieve_context. run_m.
    set (lg := logs w ++ _).
    pose proof (search_ignores_logs q k w lg) as Hlg.
    pose proof (search_preserves q k (MkWorld (store w) (fs w) lg)) as [Hst _].
    destruct (VectorStore.search q k (MkWorld (store w) (fs w) lg)) as [[results|e'] w'].
    + cbn [fst snd] in Hlg. congruence.
    + cbn [fst snd] in *. split; [congruence|exact Hst].
  - intros results Hs. unfold RAGEngine.query, RAGEngine.retrieve_context,
      RAGEngine.generate_answer. run_m.
    set (lg := logs w ++ _).
    pose proof (search_ignores_logs q k w lg) as Hlg.
    destruct (VectorStore.search q k (MkWorld (store w) (fs w) lg)) as [[results'|e'] w'].
    + cbn [fst snd] in Hlg. assert (results' = results) as -> by congruence.
      eexists. cbn. split_and!; reflexivity.
    + cbn [fst snd] in Hlg. congruence.
  - intros e Hs. unfold RAGServiceServicer.Query, RAGEngine.query,
      RAGEngine.retrieve_context. run_m.
    cbn [RAGServiceServicer.request_query RAGServiceServicer.request_k
         RAGServiceServicer.request_conversation_history].
    set (lg := (logs w ++ _) ++ _).
    pose proof (search_ignores_logs q (if 0 <? k then k else 5) w lg) as Hlg.
    destruct (VectorStore.search q _ (MkWorld (store w) (fs w) lg)) as [[results|e'] w'].
    + cbn [fst snd] in Hlg. congruence.
    + cbn [fst snd] in *. congruence.
  - intros results Hs. unfold RAGServiceServicer.Query, RAGEngine.query,
      RAGEngine.retrieve_context, RAGEngine.generate_answer. run_m.
    cbn [RAGServiceServicer.request_query RAGServiceServicer.request_k
         RAGServiceServicer.request_conversation_history].
    set (lg := (logs w ++ _) ++ _).
    pose proof (search_ignores_logs q (if 0 <? k then k else 5) w lg) as Hlg.
    destruct (VectorStore.search q _ (MkWorld (store w) (fs w) lg)) as [[results'|e'] w'].
    + cbn [fst snd] in Hlg. assert (results' = results) as -> by congruence.
      eexists. cbn. split_and!; reflexivity.
    + cbn [fst snd] in Hlg. congruence.
Qed.

Lemma query_retrieval_outcomes_witness :
  (RAGServiceServicer.Query (RAGServiceServicer.MkQueryRequest "" [] 5)
     Examples.flaky_two_rows).1
  = Ret (RAGEngine.MkAnswer "Error processing query: empty input" [] false).
Proof.
  apply (proj1 (proj2 (proj2
           (query_retrieval_outcomes "" [] 5 Examples.flaky_two_rows)))
           (MkExn EmbeddingError "empty input")).
  reflexivity.
Defined.

(** ** Nearest neighbours *)

Section KnnFacts.
Import Faiss.

Lemma insert_hit_elem (h x : Z * Z) (hs : list (Z * Z)) :
  x ∈ insert_hit h hs <-> x = h \/ x ∈ hs.
Proof.
  induction hs as [|h' hs IH]; simpl.
  - rewrite list_elem_of_singleton, elem_of_nil. tauto.
  - destruct (h.1 <=? h'.1); rewrite !elem_of_cons, ?IH; tauto.
Qed.

Lemma sort_hits_elem (x : Z * Z) (hs : list (Z * Z)) :
  x ∈ sort_hits hs <-> x ∈ hs.
Proof.
  induction hs as [|h hs IH]; simpl; [done|].
  rewrite insert_hit_elem, elem_of_cons, IH. tauto.
Qed.

Lemma insert_hit_length (h : Z * Z) (hs : list (Z * Z)) :
  length (insert_hit h hs) = S (length hs).
Proof.
  induction hs as [|h' hs IH]; simpl; [done|].
  destruct (h.1 <=? h'.1); simpl; by rewrite ?IH.
Qed.

Lemma sort_hits_length (hs : list (Z * Z)) : length (sort_hits hs) = length hs.
Proof.
  induction hs as [|h hs IH]; simpl; [done|].
  by rewrite insert_hit_length, IH.
Qed.

Lemma insert_hit_sorted (h : Z * Z) (hs : list (Z * Z)) :
  StronglySorted by_distance hs -> StronglySorted by_distance (insert_hit h hs).
Proof.
  induction 1 as [|h' hs Hs IH Hall]; simpl.
  - repeat constructor.
  - destruct (h.1 <=? h'.1) eqn:E.
    + apply Z.leb_le in E. constructor; [by constructor|].
      constructor; [done|].
      eapply Forall_impl; [exact Hall|]. unfold by_distance. intros; lia.
    + apply Z.leb_gt in E. constructor; [done|].
      apply Forall_forall. intros x Hx. apply insert_hit_elem in Hx as [->|Hx].
      * unfold by_distance. lia.
      * by eapply Forall_forall in Hall.
Qed.

Lemma sort_hits_sorted (hs : list (Z * Z)) : StronglySorted by_distance (sort_hits hs).
Proof.
  induction hs as [|h hs IH]; simpl; [constructor|]. by apply insert_hit_sorted.
Qed.

Lemma StronglySorted_take {A} (R : relation A) (n : nat) (l : list A) :
  StronglySorted R l -> StronglySorted R (take n l).
Proof.
  intros Hl. revert n. induction Hl as [|x l Hs IH Hall]; intros [|n]; simpl;
    try constructor; [apply IH | by apply Forall_take].
Qed.

Lemma scan_valid (q : vec) (rows : list vec) :
  Forall (valid_label (length rows)) (scan q rows).
Proof.
  apply Forall_forall. intros h Hh.
  apply elem_of_lookup_imap in Hh as (i & x & -> & Hi).
  apply lookup_lt_Some in Hi. right. simpl. lia.
Qed.

(** The slots [search] fills for one query: exactly [k] of them. *)
Lemma knn_length (rows : list vec) (q : vec) (k : nat) :
  length (knn rows q k) = k.
Proof.
  unfold knn. rewrite length_app, length_replicate, length_take. lia.
Qed.

(** The slots come by non-decreasing distance, the unfilled ones last. *)
Lemma knn_sorted (rows : list vec) (q : vec) (k : nat) :
  StronglySorted by_distance (knn rows q k).
Proof.
  unfold knn.
  set (found := take k (sort_hits (filter (fun h => h.1 < FLT_MAX) (scan q rows)))).
  apply StronglySorted_app. split_and!.
  - intros h pad Hh Hpad. apply elem_of_replicate_inv in Hpad as ->.
    apply subseteq_take, sort_hits_elem, list_elem_of_filter in Hh as [Hlt _].
    unfold by_distance. simpl. lia.
  - apply StronglySorted_take, sort_hits_sorted.
  - generalize (k - length found)%nat. intros n. induction n as [|n IH]; simpl; constructor; [done|].
    apply Forall_replicate. unfold by_distance. done.
Qed.

(** Every slot carries a row number or [-1]. *)
Lemma knn_valid (rows : list vec) (q : vec) (k : nat) :
  Forall (valid_label (length rows)) (knn rows q k).
Proof.
  unfold knn. apply Forall_app. split.
  - apply Forall_take, Forall_forall. intros h Hh.
    apply sort_hits_elem, list_elem_of_filter in Hh as [_ Hh].
    by eapply Forall_forall in Hh; [|apply scan_valid].
  - apply Forall_replicate. by left.
Qed.

(** With fewer than [k] stored rows the last slot is unfilled. *)
Lemma knn_short (rows : list vec) (q : vec) (k : nat) :
  (length rows < k)%nat -> last (knn rows q k) = Some (FLT_MAX, -1).
Proof.
  intros Hk. unfold knn.
  set (found := take k (sort_hits (filter (fun h => h.1 < FLT_MAX) (scan q rows)))).
  assert (Hfound : (length found <= length rows)%nat).
  { unfold found. rewrite length_take, sort_hits_length.
    etrans; [apply Nat.le_min_r|]. etrans; [apply length_filter|].
    unfold scan. by rewrite length_imap. }
  destruct (k - length found)%nat as [|n] eqn:En; [lia|].
  rewrite replicate_S_end, app_assoc. apply last_snoc.
Qed.

End KnnFacts.

(** ** The store: what [search] returns on a populated store *)

Lemma list_getitem_valid (docs : list Doc) (h : Z * Z) :
  docs <> [] ->
  Faiss.valid_label (length docs) h ->
  (h.2 <? Z.of_nat (length docs)) = true /\
  exists doc, list_getitem docs h.2 = Ret doc.
Proof.
  intros Hne Hvalid.
  assert (Hlen : (0 < length docs)%nat) by (destruct docs; simpl; [done|lia]).
  split; [apply Z.ltb_lt; destruct Hvalid; lia|].
  unfold list_getitem. cbv zeta.
  destruct (h.2 <? 0) eqn:Hneg.
  - apply Z.ltb_lt in Hneg. destruct Hvalid as [->|?]; [|lia].
    destruct (-1 + Z.of_nat (length docs) <? 0) eqn:E; [apply Z.ltb_lt in E; lia|].
    destruct (lookup_lt_is_Some_2 docs (Z.to_nat (-1 + Z.of_nat (length docs))))
      as [doc ->]; [lia|]. by eexists.
  - rewrite Hneg. apply Z.ltb_ge in Hneg. destruct Hvalid as [?|?]; [lia|].
    destruct (lookup_lt_is_Some_2 docs (Z.to_nat h.2)) as [doc ->]; [lia|].
    by eexists.
Qed.

Lemma list_getitem_middle {A} (pre rest : list A) (x : A) :
  list_getitem (pre ++ x :: rest) (Z.of_nat (length pre)) = Ret x.
Proof.
  unfold list_getitem. cbv zeta.
  assert (E : (Z.of_nat (length pre) <? 0) = false) by (apply Z.ltb_ge; lia).
  rewrite !E, Nat2Z.id, list_lookup_middle by done. done.
Qed.

(** [l[-1]] is the last element. *)
Lemma list_getitem_last {A} (l : list A) (x : A) :
  list_getitem (l ++ [x]) (-1) = Ret x.
Proof.
  unfold list_getitem. change (-1 <? 0) with true. cbv iota zeta.
  rewrite length_app. cbn [length].
  assert (E : (-1 + Z.of_nat (length l + 1) <? 0) = false) by (apply Z.ltb_ge; lia).
  rewrite E.
  replace (Z.to_nat (-1 + Z.of_nat (length l + 1))) with (length l) by lia.
  by rewrite list_lookup_middle.
Qed.

(** The loop of [search] over valid labels: every slot yields a hit. *)
Lemma collect_results_run (docs : list Doc) :
  docs <> [] ->
  forall (res pre : list (Z * Z)) (results : list VectorStore.Hit),
    Forall (Faiss.valid_label (length docs)) res ->
    VectorStore.collect_results docs (map fst (pre ++ res)) (length pre)
      (map snd res) results
    = Ret (results ++ map (VectorStore.hit_of docs) res).
Proof.
  intros Hne res. induction res as [|h res IH]; intros pre results Hvalid.
  - simpl. by rewrite app_nil_r.
  - apply Forall_cons in Hvalid as [Hh Hres].
    destruct (list_getitem_valid docs h Hne Hh) as [Hlt [doc Hdoc]].
    cbn [map VectorStore.collect_results]. rewrite Hlt, Hdoc.
    rewrite map_app. cbn [map].
    rewrite <- (length_map fst pre), list_getitem_middle, length_map.
    specialize (IH (pre ++ [h]) (results ++ [(text doc, h.1, metadata doc)]) Hres).
    rewrite <- app_assoc, length_app, Nat.add_1_r in IH. cbn [app] in IH.
    rewrite map_app in IH. cbn [map] in IH. rewrite IH.
    rewrite <- app_assoc. cbn [app]. unfold VectorStore.hit_of at 2.
    by rewrite Hdoc.
Qed.

(** On a populated store with as many records as vectors, a query that
    embeds to a vector of the index's width and a positive [k], [search]
    returns one hit per result slot of the index. *)
Lemma search_run (w : World) (query : string) (k : Z) (v : Faiss.vec) :
  embed (embedding_model (store w)) query = Ret v ->
  Z.of_nat (length v) = Faiss.d (index (store w)) ->
  0 < k ->
  documents (store w) <> [] ->
  length (documents (store w)) = length (Faiss.xb (index (store w))) ->
  (VectorStore.search query k w).1
  = Ret (map (VectorStore.hit_of (documents (store w)))
           (Faiss.knn (Faiss.xb (index (store w))) v (Z.to_nat k))).
Proof.
  intros Hv Hwidth Hk Hne Hlen.
  unfold VectorStore.search. run_m.
  unfold Faiss.ntotal. rewrite <- Hlen.
  destruct (Z.of_nat (length (documents (store w))) =? 0) eqn:E.
  { apply Z.eqb_eq in E. destruct (documents (store w)); [done|simpl in E; lia]. }
  cbn [encode]. rewrite Hv. unfold Faiss.search, Faiss.has_width.
  cbn [forallb]. rewrite (proj2 (Z.eqb_eq _ _) Hwidth).
  rewrite (proj2 (Z.ltb_lt _ _) Hk).
  cbn -[Faiss.knn VectorStore.collect_results pretty].
  pose proof (collect_results_run (documents (store w)) Hne
                (Faiss.knn (Faiss.xb (index (store w))) v (Z.to_nat k)) [] []) as Hrun.
  cbn [app length] in Hrun.
  change (Z.to_nat 0) with 0%nat. unfold lookup, list_lookup.
  cbn -[Faiss.knn VectorStore.collect_results pretty].
  rewrite Hrun; [done|]. rewrite Hlen. apply knn_valid.
Qed.

Lemma StronglySorted_distances (res : list (Z * Z)) :
  StronglySorted Faiss.by_distance res -> StronglySorted Z.le (map fst res).
Proof.
  induction 1 as [|h res Hs IH Hall]; simpl; constructor; [done|].
  apply Forall_fmap. by eapply Forall_impl; [exact Hall|].
Qed.

(** The number and the order of the hits: always [k] of them, by
    non-decreasing distance; when the index holds fewer than [k] rows, the
    last hit is the last record of the store, at distance [FLT_MAX]. *)
Lemma search_returns_k_hits (w : World) (query : string) (k : Z) (v : Faiss.vec) :
  embed (embedding_model (store w)) query = Ret v ->
  Z.of_nat (length v) = Faiss.d (index (store w)) ->
  0 < k ->
  documents (store w) <> [] ->
  length (documents (store w)) = length (Faiss.xb (index (store w))) ->
  exists hits,
    (VectorStore.search query k w).1 = Ret hits /\
    Z.of_nat (length hits) = k /\
    StronglySorted Z.le (map (fun hit => hit.1.2) hits) /\
    (Faiss.ntotal (index (store w)) < k ->
     exists doc,
       last (documents (store w)) = Some doc /\
       last hits = Some (text doc, Faiss.FLT_MAX, metadata doc)).
Proof.
  intros Hv Hwidth Hk Hne Hlen. eexists. split; [by apply search_run|].
  split_and!.
  - rewrite length_map, knn_length. lia.
  - rewrite map_map.
    assert (Hfst : forall docs res,
              map (fun h => (VectorStore.hit_of docs h).1.2) res = map fst res).
    { intros docs res. apply map_ext. intros h. unfold VectorStore.hit_of.
      by destruct (list_getitem docs h.2). }
    rewrite Hfst. apply StronglySorted_distances, knn_sorted.
  - intros Hshort. unfold Faiss.ntotal in Hshort.
    destruct (documents (store w)) as [|d0 docs] eqn:Hdocs using rev_ind; [done|].
    clear IHdocs. eexists. split; [apply last_snoc|].
    rewrite fmap_last, knn_short by lia. cbn [fmap option_fmap option_map].
    f_equal. unfold VectorStore.hit_of. cbn [snd fst].
    by rewrite list_getitem_last.
Qed.

(** C1: the code departs from the claim when the index holds fewer than [k]
    rows. On a store of the two rows ["a"] and ["bbb"], [search("bb", 5)]
    returns five hits, not two: the two rows, then the last record three
    more times at distance [FLT_MAX], one for each unfilled slot, whose
    label [-1] passes the test [idx < len(self.documents)] and indexes the
    records from the end. *)
Theorem search_short_index_returns_k_hits :
  Faiss.ntotal (index (store Examples.two_rows)) = 2 /\
  Z.of_nat (length (documents (store Examples.two_rows))) = 2 /\
  (VectorStore.search "bb" 5 Examples.two_rows).1
  = Ret [("a"%string, 1, ∅); ("bbb"%string, 1, ∅);
         ("bbb"%string, Faiss.FLT_MAX, ∅);
         ("bbb"%string, Faiss.FLT_MAX, ∅);
         ("bbb"%string, Faiss.FLT_MAX, ∅)].
Proof. split_and!; reflexivity. Qed.

(** * Further properties of the retrieval code *)

(** ** Read-only actions *)

Section ReadOnly.
Context {A B : Type}.

Lemma read_only_ret (a : A) : read_only (ret a).
Proof. by intros w. Qed.

Lemma read_only_raise (e : Exn) : read_only (@raise A e).
Proof. by intros w. Qed.

Lemma read_only_lift (o : outcome A) : read_only (lift o).
Proof. by intros w. Qed.

Lemma read_only_bind (m : M A) (k : A -> M B) :
  read_only m -> (forall a, read_only (k a)) -> read_only (bind m k).
Proof.
  intros Hm Hk w. unfold bind. destruct (Hm w) as (Hs & Hf & Hl).
  destruct (m w) as [[a|e] w']; cbn [snd] in *; [|done].
  destruct (Hk a w') as (Hs' & Hf' & Hl').
  split_and!; [congruence|congruence|by etrans].
Qed.

Lemma read_only_try_except (body : M A) (handler : Exn -> M A) :
  read_only body -> (forall e, read_only (handler e)) ->
  read_only (try_except body handler).
Proof.
  intros Hm Hk w. unfold try_except. destruct (Hm w) as (Hs & Hf & Hl).
  destruct (body w) as [[a|e] w']; cbn [snd] in *; [done|].
  destruct (Hk e w') as (Hs' & Hf' & Hl').
  split_and!; [congruence|congruence|by etrans].
Qed.

End ReadOnly.

Lemma read_only_logger (lvl : Level) (msg : string) : read_only (logger lvl msg).
Proof. intros w. split_and!; [done|done|]. by apply prefix_app_r. Qed.

Lemma read_only_get_store : read_only get_store.
Proof. by intros w. Qed.

Create HintDb read_only discriminated.
#[local] Hint Resolve read_only_ret read_only_raise read_only_lift read_only_bind
  read_only_try_except read_only_logger read_only_get_store : read_only.
#[local] Hint Extern 1 (read_only (logger_info _)) => apply read_only_logger : read_only.
#[local] Hint Extern 1 (read_only (logger_warning _)) => apply read_only_logger : read_only.
#[local] Hint Extern 1 (read_only (logger_error _)) => apply read_only_logger : read_only.
#[local] Hint Extern 2 (read_only (if ?b then _ else _)) => destruct b : read_only.

Lemma read_only_search (query : string) (k : Z) : read_only (VectorStore.search query k).
Proof.
  unfold VectorStore.search.
  apply read_only_bind; [auto with read_only|]. intros s.
  destruct (Faiss.ntotal (index s) =? 0); auto 10 with read_only.
Qed.

Lemma read_only_get_stats : read_only VectorStore.get_stats.
Proof. unfold VectorStore.get_stats. auto with read_only. Qed.

#[local] Hint Resolve read_only_search read_only_get_stats : read_only.

(** X1. Querying never changes what is stored. [VectorStore.search],
    [RAGEngine.retrieve_context], [RAGEngine.query] and the service handler
    [RAGServiceServicer.Query] leave the store (index, records, model) and
    the files exactly as they were, whether they return or raise; all they
    do to the process state is append log records. *)
Theorem queries_are_read_only (q : string) (history : option (list (string * string)))
    (k : Z) (request : RAGServiceServicer.QueryRequest) :
  read_only (VectorStore.search q k) /\
  read_only (RAGEngine.retrieve_context q k) /\
  read_only (RAGEngine.query q history k) /\
  read_only (RAGServiceServicer.Query request).
Proof.
  assert (Hretrieve : forall q k, read_only (RAGEngine.retrieve_context q k)).
  { intros q' k'. unfold RAGEngine.retrieve_context. auto with read_only. }
  assert (Hquery : forall q h k, read_only (RAGEngine.query q h k)).
  { intros q' h' k'. unfold RAGEngine.query, RAGEngine.generate_answer.
    auto 10 with read_only. }
  split_and!; [auto with read_only|done|done|].
  unfold RAGServiceServicer.Query. auto 10 with read_only.
Qed.

(** X2. [GetStats] never raises and changes nothing. It reports the number
    of stored records as [total_documents], and [total_chunks] is always 0:
    the dictionary of [get_stats] has no key ["total_chunks"], so the
    default of [stats.get] is what the response carries. *)
Theorem GetStats_reports (w : World) :
  (RAGServiceServicer.GetStats w).1
  = Ret (RAGServiceServicer.MkGetStatsResponse
           (PInt (Z.of_nat (length (documents (store w))))) (PInt 0)) /\
  store (RAGServiceServicer.GetStats w).2 = store w /\
  fs (RAGServiceServicer.GetStats w).2 = fs w /\
  logs (RAGServiceServicer.GetStats w).2 = logs w.
Proof.
  unfold RAGServiceServicer.GetStats, RAGEngine.get_stats, VectorStore.get_stats.
  run_m. unfold dict_get, RAGServiceServicer.stats_dict.
  cbn [VectorStore.total_documents VectorStore.index_size
       VectorStore.embedding_dimension VectorStore.embedding_model_key].
  rewrite lookup_insert_eq.
  rewrite !lookup_insert_ne by done. rewrite lookup_empty.
  by split_and!.
Qed.

(** ** Clearing, saving and loading *)

(** X3. [clear] empties the store whatever it held and never raises: no
    vector and no record are left, the model and the dimension are kept, no
    file is touched (nothing is persisted or deleted), and a [search] that
    follows returns the empty list for every query and every [k]. *)
Theorem clear_then_search (w : World) (query : string) (k : Z) :
  let cleared := (VectorStore.clear w).2 in
  (VectorStore.clear w).1 = Ret tt /\
  VectorStore.is_empty (store cleared) /\
  Faiss.d (index (store cleared)) = dimension (store w) /\
  dimension (store cleared) = dimension (store w) /\
  embedding_model (store cleared) = embedding_model (store w) /\
  fs cleared = fs w /\
  (VectorStore.search query k cleared).1 = Ret [].
Proof. cbv zeta. split_and!; try done. Qed.

Lemma add_documents_fs (texts : list string)
    (metadata : option (list (gmap string PyVal))) (w : World) :
  fs (VectorStore.add_documents texts metadata w).2 = fs w.
Proof.
  pose proof (add_documents_run texts metadata w) as Hrun. cbv zeta in Hrun.
  destruct texts as [|t ts]; [by rewrite Hrun|].
  destruct (encode (embedding_model (store w)) (t :: ts)); [|by rewrite Hrun].
  destruct (Faiss.has_width _ _); [|by rewrite Hrun].
  by destruct Hrun as (_ & _ & _ & _ & _ & _ & ->).
Qed.

(** X4. [save] is not atomic. When the index path can be written and the
    documents path cannot, [save] logs the error and raises, and by then the
    index artifact has been replaced by the current index while the
    documents artifact is what it was; the store itself is never touched by
    [save]. *)
Theorem save_torn_write (index_path documents_path : string) (w : World) :
  index_path ∉ readonly (fs w) ->
  documents_path ∈ readonly (fs w) ->
  let r := VectorStore.save index_path documents_path w in
  r.1 = Raise (MkExn PermissionError ("Permission denied: " +:+ documents_path)) /\
  files (fs r.2) !! index_path = Some (IndexFile (index (store w))) /\
  files (fs r.2) !! documents_path = files (fs w) !! documents_path /\
  store r.2 = store w.
Proof.
  intros Hi Hd. cbv zeta.
  pose proof (save_run index_path documents_path w) as (Hstore & _ & Hrun).
  cbv zeta in Hrun.
  rewrite (bool_decide_eq_false_2 _ Hi), (bool_decide_eq_true_2 _ Hd) in Hrun.
  destruct Hrun as [-> ->]. split_and!; [done| |  |done].
  - by rewrite lookup_insert_eq.
  - rewrite lookup_insert_ne; [done|]. intros ->. done.
Qed.

Lemma save_torn_write_witness :
  let r := VectorStore.save "i" "d" Examples.docs_locked in
  r.1 = Raise (MkExn PermissionError "Permission denied: d") /\
  files (fs r.2) !! "i" = Some (IndexFile (index (store Examples.docs_locked))) /\
  files (fs r.2) !! "d" = files (fs Examples.docs_locked) !! "d" /\
  store r.2 = store Examples.docs_locked.
Proof.
  apply (save_torn_write "i" "d" Examples.docs_locked).
  - vm_compute. intros H. discriminate H.
  - vm_compute. reflexivity.
Defined.

(** X5. [load] discards what was added since the last [save]. After a
    [save] that returned normally (on two distinct paths), [add_documents]
    followed by [load] of the same paths returns normally and leaves the
    store with exactly the index and the records it had when it was saved,
    whatever was added in between. *)
Theorem load_discards_unsaved (index_path documents_path : string)
    (texts : list string) (metadata : option (list (gmap string PyVal))) (w : World) :
  (VectorStore.save index_path documents_path w).1 = Ret tt ->
  index_path <> documents_path ->
  let saved := (VectorStore.save index_path documents_path w).2 in
  let grown := (VectorStore.add_documents texts metadata saved).2 in
  let r := VectorStore.load index_path documents_path grown in
  r.1 = Ret tt /\
  index (store r.2) = index (store w) /\
  documents (store r.2) = documents (store w).
Proof.
  intros Hret Hne. cbv zeta.
  set (saved := (VectorStore.save index_path documents_path w).2).
  set (grown := (VectorStore.add_documents texts metadata saved).2).
  assert (Hfs : files (fs grown) = files (fs saved)).
  { unfold grown. by rewrite add_documents_fs. }
  destruct (save_then_load_run w grown index_path documents_path Hret Hne Hfs)
    as (Hok & Hstore & _).
  by rewrite Hstore.
Qed.

Lemma load_discards_unsaved_witness :
  let saved := (VectorStore.save "i" "d" Examples.two_rows).2 in
  let grown := (VectorStore.add_documents ["zzzz"%string] None saved).2 in
  let r := VectorStore.load "i" "d" grown in
  r.1 = Ret tt /\
  index (store r.2) = index (store Examples.two_rows) /\
  documents (store r.2) = documents (store Examples.two_rows).
Proof.
  apply (load_discards_unsaved "i" "d" ["zzzz"%string] None Examples.two_rows).
  - reflexivity.
  - discriminate.
Defined.

(** ** What the hits of [search] are *)

Lemma list_getitem_elem {A} (l : list A) (idx : Z) (x : A) :
  list_getitem l idx = Ret x -> x ∈ l.
Proof.
  unfold list_getitem. cbv zeta.
  destruct ((if idx <? 0 then idx + Z.of_nat (length l) else idx) <? 0); [done|].
  destruct (l !! _) as [y|] eqn:Hy; [|done].
  intros [= <-]. by eapply list_elem_of_lookup_2.
Qed.

Lemma list_getitem_nat {A} (l : list A) (i : nat) (x : A) :
  l !! i = Some x -> list_getitem l (Z.of_nat i) = Ret x.
Proof.
  intros Hi. unfold list_getitem. cbv zeta.
  assert (E : (Z.of_nat i <? 0) = false) by (apply Z.ltb_ge; lia).
  by rewrite !E, Nat2Z.id, Hi.
Qed.

(** A result slot is unfilled, or it is a stored row with its distance,
    which is below [FLT_MAX]. *)
Lemma knn_elem (rows : list Faiss.vec) (q : Faiss.vec) (k : nat) (h : Z * Z) :
  h ∈ Faiss.knn rows q k ->
  h = (Faiss.FLT_MAX, -1) \/
  (h.1 < Faiss.FLT_MAX /\
   exists i x, rows !! i = Some x /\ h = (Faiss.l2sqr q x, Z.of_nat i)).
Proof.
  unfold Faiss.knn. rewrite elem_of_app. intros [Hh|Hh].
  - right. apply subseteq_take, sort_hits_elem, list_elem_of_filter in Hh as [Hlt Hh].
    split; [done|]. apply elem_of_lookup_imap in Hh as (i & x & -> & Hi). eauto.
  - left. by apply elem_of_replicate_inv in Hh.
Qed.

(** The first result slot is at most as far as any stored row. *)
Lemma knn_head_nearest (rows : list Faiss.vec) (q : Faiss.vec) (k : nat)
    (h : Z * Z) (rest : list (Z * Z)) :
  Faiss.knn rows q k = h :: rest ->
  forall x, x ∈ rows -> h.1 <= Faiss.l2sqr q x.
Proof.
  intros Hknn x Hx.
  assert (Hh : h.1 <= Faiss.FLT_MAX).
  { assert (Hin : h ∈ Faiss.knn rows q k) by (rewrite Hknn; apply list_elem_of_here).
    apply knn_elem in Hin as [->|[Hlt _]]; simpl; lia. }
  destruct (decide (Faiss.l2sqr q x < Faiss.FLT_MAX)) as [Hlt|Hge]; [|lia].
  apply list_elem_of_lookup in Hx as [i Hi].
  set (found := Faiss.sort_hits
                  (filter (fun h => h.1 < Faiss.FLT_MAX) (Faiss.scan q rows))).
  assert (Hfound : (Faiss.l2sqr q x, Z.of_nat i) ∈ found).
  { apply sort_hits_elem, list_elem_of_filter. split; [done|].
    unfold Faiss.scan.
    by apply (elem_of_lookup_imap_2
                (fun (i : nat) (x : Faiss.vec) => (Faiss.l2sqr q x, Z.of_nat i))
                rows x i). }
  pose proof (sort_hits_sorted
                (filter (fun h => h.1 < Faiss.FLT_MAX) (Faiss.scan q rows))) as Hsorted.
  fold found in Hsorted. unfold Faiss.knn in Hknn. fold found in Hknn.
  destruct found as [|h0 found']; [by apply elem_of_nil in Hfound|].
  destruct k as [|k']; [done|]. cbn [take app] in Hknn. injection Hknn as <- _.
  apply elem_of_cons in Hfound as [<-|Hfound]; [done|].
  apply StronglySorted_inv in Hsorted as [_ Hall].
  eapply Forall_forall in Hall; [|exact Hfound]. exact Hall.
Qed.

Lemma aligned_lookup (s : VectorStore) (i : nat) (doc : Doc) (x : Faiss.vec) :
  VectorStore.aligned s ->
  documents s !! i = Some doc ->
  Faiss.xb (index s) !! i = Some x ->
  embed (embedding_model s) (text doc) = Ret x.
Proof.
  unfold VectorStore.aligned. intros Hal Hdoc Hx.
  assert (H : map (fun doc => embed (embedding_model s) (text doc)) (documents s) !! i
              = map Ret (Faiss.xb (index s)) !! i) by by rewrite Hal.
  rewrite !list_lookup_fmap, Hdoc, Hx in H. by injection H.
Qed.

Lemma aligned_length (s : VectorStore) :
  VectorStore.aligned s -> length (documents s) = length (Faiss.xb (index s)).
Proof.
  unfold VectorStore.aligned. intros Hal.
  by rewrite <- (length_map (fun doc => embed (embedding_model s) (text doc))), Hal,
    length_map.
Qed.

(** X6. On a populated store holding as many records as vectors, a query
    that embeds to a vector of the index's width and a positive [k],
    [search] returns normally; it returns exactly [k] hits (also when fewer
    rows are stored), in order of non-decreasing distance, and the text and
    metadata of every hit are those of a stored record. *)
Theorem search_returns_stored_records (w : World) (query : string) (k : Z)
    (v : Faiss.vec) :
  embed (embedding_model (store w)) query = Ret v ->
  Z.of_nat (length v) = Faiss.d (index (store w)) ->
  0 < k ->
  documents (store w) <> [] ->
  length (documents (store w)) = length (Faiss.xb (index (store w))) ->
  exists hits,
    (VectorStore.search query k w).1 = Ret hits /\
    Z.of_nat (length hits) = k /\
    StronglySorted Z.le (map (fun hit => hit.1.2) hits) /\
    Forall (fun hit => exists doc, doc ∈ documents (store w) /\
                         hit.1.1 = text doc /\ hit.2 = metadata doc) hits.
Proof.
  intros Hv Hwidth Hk Hne Hlen. eexists. split; [by apply search_run|].
  split_and!.
  - rewrite length_map, knn_length. lia.
  - rewrite map_map.
    assert (Hfst : forall docs res,
              map (fun h => (VectorStore.hit_of docs h).1.2) res = map fst res).
    { intros docs res. apply map_ext. intros h. unfold VectorStore.hit_of.
      by destruct (list_getitem docs h.2). }
    rewrite Hfst. apply StronglySorted_distances, knn_sorted.
  - apply Forall_fmap, Forall_forall. intros h Hh. simpl.
    pose proof (knn_valid (Faiss.xb (index (store w))) v (Z.to_nat k)) as Hvalid.
    rewrite <- Hlen in Hvalid. eapply Forall_forall in Hvalid; [|exact Hh].
    destruct (list_getitem_valid _ h Hne Hvalid) as [_ [doc Hdoc]].
    exists doc. unfold VectorStore.hit_of. rewrite Hdoc.
    split; [by eapply list_getitem_elem|done].
Qed.

Lemma search_returns_stored_records_witness :
  exists hits,
    (VectorStore.search "bb" 1 Examples.two_rows).1 = Ret hits /\
    Z.of_nat (length hits) = 1 /\
    StronglySorted Z.le (map (fun hit => hit.1.2) hits) /\
    Forall (fun hit => exists doc, doc ∈ documents (store Examples.two_rows) /\
                         hit.1.1 = text doc /\ hit.2 = metadata doc) hits.
Proof.
  apply (search_returns_stored_records Examples.two_rows "bb" 1 [2]).
  - reflexivity.
  - reflexivity.
  - lia.
  - discriminate.
  - reflexivity.
Defined.



(** ** The engine: construction and ingestion *)



Lemma doc_metadata_lookup (l : list (gmap string PyVal)) (i : nat) :
  VectorStore.doc_metadata (Some l) i = default ∅ (l !! i).
Proof. by destruct l. Qed.

(** What [process_document] returns when it returns. *)
Lemma process_document_result (ps : Parsers) (file_path : string) (w : World)
    (doc_data : DocumentProcessor.DocData) :
  (DocumentProcessor.process_document ps file_path w).1 = Ret doc_data ->
  DocumentProcessor.filename doc_data = PyPath.basename file_path /\
  DocumentProcessor.file_type doc_data = PyPath.lower (PyPath.suffix file_path).
Proof.
  unfold DocumentProcessor.process_document.
  destruct (DocumentProcessor.extractors ps _) as [extractor|]; [|done].
  run_m. destruct (extractor file_path w) as [[text|e] w']; [|done].
  by intros [= <-].
Qed.

(** The files [_save_vector_store] leaves behind. *)
Lemma save_vector_store_files (c : Collaborators) (w : World) :
  let r := RAGEngine._save_vector_store c w in
  let with_index :=
    <[RAGEngine.index_path c := IndexFile (index (store w))]> (files (fs w)) in
  readonly (fs r.2) = readonly (fs w) /\
  files (fs r.2)
  = if bool_decide (RAGEngine.index_path c ∈ readonly (fs w)) then files (fs w)
    else if bool_decide (RAGEngine.docs_path c ∈ readonly (fs w)) then with_index
    else <[RAGEngine.docs_path c := PickleFile (documents (store w))]> with_index.
Proof.
  pose proof (save_run (RAGEngine.index_path c) (RAGEngine.docs_path c) w)
    as (_ & Hro & Hrun).
  cbv zeta in *. unfold RAGEngine._save_vector_store. run_m.
  destruct (VectorStore.save _ _ w) as [[[]|e] w']; cbn [fst snd fs] in *.
  - split; [done|]. repeat case_bool_decide; by destruct Hrun.
  - split; [done|]. repeat case_bool_decide; by destruct Hrun.
Qed.

(** The two ways a call of [ingest_document] ends: the error dictionary with
    the store and the files untouched, or the success dictionary with the
    chunks appended and the artifacts written as far as the paths allow. *)
Lemma ingest_document_run (c : Collaborators) (file_path : string) (w : World) :
  let r := RAGEngine.ingest_document c file_path w in
  let w1 := (logger_info ("Ingesting document: " +:+ file_path) w).2 in
  (exists message,
     r.1 = Ret (RAGEngine.IngestError message) /\
     store r.2 = store w /\ fs r.2 = fs w) \/
  (exists doc_data chunks vs,
     (DocumentProcessor.process_document (parsers c) file_path w1).1 = Ret doc_data /\
     split_text c (DocumentProcessor.doc_text doc_data) = Ret chunks /\
     encode (embedding_model (store w)) chunks = Ret vs /\
     r.1 = Ret (RAGEngine.IngestSuccess (DocumentProcessor.filename doc_data)
                  (Z.of_nat (length chunks)) (DocumentProcessor.file_type doc_data)) /\
     documents (store r.2)
     = documents (store w)
       ++ imap (fun i t => MkDoc t (RAGEngine.chunk_metadata doc_data i)) chunks /\
     Faiss.xb (index (store r.2)) = Faiss.xb (index (store w)) ++ vs /\
     Faiss.d (index (store r.2)) = Faiss.d (index (store w)) /\
     embedding_model (store r.2) = embedding_model (store w) /\
     dimension (store r.2) = dimension (store w) /\
     readonly (fs r.2) = readonly (fs w) /\
     files (fs r.2)
     = let with_index :=
         <[RAGEngine.index_path c := IndexFile (index (store r.2))]> (files (fs w)) in
       if bool_decide (RAGEngine.index_path c ∈ readonly (fs w)) then files (fs w)
       else if bool_decide (RAGEngine.docs_path c ∈ readonly (fs w)) then with_index
       else <[RAGEngine.docs_path c := PickleFile (documents (store r.2))]> with_index).
Proof.
  cbv zeta.
  set (w1 := (logger_info ("Ingesting document: " +:+ file_path) w).2).
  assert (Hw1 : store w1 = store w /\ fs w1 = fs w) by done.
  destruct Hw1 as [Hs1 Hf1].
  pose proof (process_document_preserves (parsers c) file_path w1) as [Hs2 Hf2].
  unfold RAGEngine.ingest_document. run_m.
  change (MkWorld (store w) (fs w)
            (logs w ++ [MkLog INFO ("Ingesting document: " +:+ file_path)])) with w1.
  destruct (DocumentProcessor.process_document (parsers c) file_path w1)
    as [[doc_data|e1] w2] eqn:Hpd; cbn [fst snd] in *.
  2:{ left. eexists. cbn. split_and!; [done|congruence|congruence]. }
  destruct (split_text c (DocumentProcessor.doc_text doc_data)) as [chunks|e2] eqn:Hsplit.
  2:{ left. eexists. cbn. split_and!; [done|congruence|congruence]. }
  set (md := map (RAGEngine.chunk_metadata doc_data) (seq 0 (length chunks))).
  pose proof (add_documents_run chunks (Some md) w2) as Hrun. cbv zeta in Hrun.
  assert (Hmd : imap (fun j t => MkDoc t (VectorStore.doc_metadata (Some md) j)) chunks
                = imap (fun i t => MkDoc t (RAGEngine.chunk_metadata doc_data i)) chunks).
  { apply imap_ext. intros i t Hi. cbv beta. f_equal.
    rewrite doc_metadata_lookup. unfold md.
    rewrite list_lookup_fmap, lookup_seq_lt by (by eapply lookup_lt_Some).
    done. }
  pose proof (save_vector_store_run c) as Hsave.
  pose proof (save_vector_store_files c) as Hfiles. cbv zeta in Hfiles.
  destruct chunks as [|t ts].
  - rewrite Hrun.
    set (w3 := MkWorld (store w2) (fs w2) (logs w2 ++ [MkLog WARNING "No texts to add"])).
    destruct (Hsave w3) as [Hret Hstore]. destruct (Hfiles w3) as [Hro Hfl].
    destruct (RAGEngine._save_vector_store c w3) as [[[]|e4] w4]; [|done].
    subst w3. cbn [fst snd store fs] in *. right. exists doc_data, [], [].
    rewrite Hstore, Hs2, Hs1, Hro, Hfl, Hf2, Hf1, !app_nil_r.
    split_and!; try done. by rewrite Hs2, Hs1.
  - destruct (encode (embedding_model (store w2)) (t :: ts)) as [vs|e3] eqn:Henc.
    2:{ rewrite Hrun. left. eexists. cbn. split_and!; [done|congruence|congruence]. }
    destruct (Faiss.has_width _ _).
    2:{ rewrite Hrun. left. eexists. cbn. split_and!; [done|congruence|congruence]. }
    destruct Hrun as (Hok & Hix & Hdocs & Hmodel & Hdim & _ & Hfs).
    destruct (VectorStore.add_documents (t :: ts) (Some md) w2) as [[[]|e3] w3];
      [|done].
    cbn [fst snd] in *.
    destruct (Hsave w3) as [Hret Hstore]. destruct (Hfiles w3) as [Hro Hfl].
    destruct (RAGEngine._save_vector_store c w3) as [[[]|e4] w4]; [|done].
    cbn [fst snd store fs] in *. right. exists doc_data, (t :: ts), vs.
    rewrite Hstore, Hro, Hfl, Hfs, Hf2, Hf1, Hix, Hdocs, Hmodel, Hdim, Hmd, Hs2, Hs1.
    rewrite Hs2, Hs1 in Henc. by split_and!.
Qed.

(** X9. What a successful [ingest_document] has done. The result names the
    last path component of the ingested file and its lower-cased suffix, and
    counts the chunks the splitter returned for the extracted text. The
    store has gained exactly these chunks, in order, after the records it
    held, the [i]-th one tagged with that file name, that file type and
    [chunk_index = i], and as many index rows. When both artifact paths can
    be written they hold the new index and the new records afterwards. A
    failed save does not turn the result into an error: with an index path
    that cannot be written the result is still the success one and no file
    has changed. *)
Theorem ingest_document_success (c : Collaborators) (file_path : string) (w : World)
    (filename : string) (chunks_created : Z) (file_type : string) :
  (RAGEngine.ingest_document c file_path w).1
    = Ret (RAGEngine.IngestSuccess filename chunks_created file_type) ->
  let r := RAGEngine.ingest_document c file_path w in
  let w1 := (logger_info ("Ingesting document: " +:+ file_path) w).2 in
  filename = PyPath.basename file_path /\
  file_type = PyPath.lower (PyPath.suffix file_path) /\
  (exists doc_text chunks,
     (DocumentProcessor.process_document (parsers c) file_path w1).1
       = Ret (DocumentProcessor.MkDocData filename doc_text file_type) /\
     split_text c doc_text = Ret chunks /\
     chunks_created = Z.of_nat (length chunks) /\
     documents (store r.2)
     = documents (store w)
       ++ imap (fun i t =>
                  MkDoc t (<["filename" := PStr filename]>
                             (<["file_type" := PStr file_type]>
                                (<["chunk_index" := PInt (Z.of_nat i)]> ∅))))
            chunks) /\
  Faiss.ntotal (index (store r.2)) = Faiss.ntotal (index (store w)) + chunks_created /\
  (RAGEngine.index_path c ∉ readonly (fs w) ->
   RAGEngine.docs_path c ∉ readonly (fs w) ->
   files (fs r.2) !! RAGEngine.index_path c = Some (IndexFile (index (store r.2))) /\
   files (fs r.2) !! RAGEngine.docs_path c
     = Some (PickleFile (documents (store r.2)))) /\
  (RAGEngine.index_path c ∈ readonly (fs w) -> fs r.2 = fs w).
Proof.
  intros Hok. cbv zeta.
  destruct (ingest_document_run c file_path w) as
    [(message & Herr & _)
    |(doc_data & chunks & vs & Hpd & Hsplit & Henc & Hret & Hdocs & Hxb & _ & _ & _
      & Hro & Hfiles)];
    [congruence|].
  rewrite Hok in Hret. injection Hret as -> -> ->.
  destruct (process_document_result _ _ _ _ Hpd) as [Hname Htype].
  cbv zeta in Hfiles. split_and!.
  - done.
  - done.
  - exists (DocumentProcessor.doc_text doc_data), chunks.
    split_and!; [by destruct doc_data|done|done|done].
  - unfold Faiss.ntotal. rewrite Hxb, length_app, (encode_length _ _ _ Henc). lia.
  - intros Hi Hd.
    rewrite Hfiles, (bool_decide_eq_false_2 _ Hi), (bool_decide_eq_false_2 _ Hd).
    split.
    + rewrite lookup_insert_ne by (by apply not_eq_sym, engine_paths_distinct).
      by rewrite lookup_insert_eq.
    + by rewrite lookup_insert_eq.
  - intros Hi. rewrite (bool_decide_eq_true_2 _ Hi) in Hfiles.
    destruct (fs (RAGEngine.ingest_document c file_path w).2), (fs w).
    cbn in *. by subst.
Qed.

Lemma ingest_document_success_witness :
  documents (store Examples.ingested)
  = [MkDoc "a" (RAGEngine.chunk_metadata
                  (DocumentProcessor.MkDocData "doc.txt" "a|bbb|ccccc" ".txt") 0);
     MkDoc "bbb" (RAGEngine.chunk_metadata
                    (DocumentProcessor.MkDocData "doc.txt" "a|bbb|ccccc" ".txt") 1);
     MkDoc "ccccc" (RAGEngine.chunk_metadata
                      (DocumentProcessor.MkDocData "doc.txt" "a|bbb|ccccc" ".txt") 2)] /\
  Faiss.ntotal (index (store Examples.ingested)) = 3.
Proof.
  destruct (ingest_document_success Examples.collaborators "/kb/doc.txt"
              Examples.kb_fresh "doc.txt" 3 ".txt")
    as (_ & _ & (doc_text & chunks & Hpd & Hsplit & _ & Hdocs) & Hrows & _).
  - reflexivity.
  - split; [|exact Hrows].
    injection Hpd as <-. injection Hsplit as <-. exact Hdocs.
Defined.

(** ** The service handler [IngestDocument] *)

(** X10. [IngestDocument] never raises: it always answers with a response.
    When the temporary file cannot be written, the answer is the error
    response carrying the request's file name, and neither the store nor the
    files change. When the temporary path is fresh and can be written, the
    temporary file is gone afterwards, whether ingestion succeeded or not,
    and no file other than the two artifacts differs from before. The answer
    is then either the error response (request's file name, 0 chunks, type
    ["unknown"]), with the store and the files exactly as before, or the
    success response, which names the temporary file (not the uploaded one)
    and its lower-cased suffix, the store having gained as many records as
    the response counts chunks. *)
Theorem IngestDocument_outcomes (c : Collaborators) (temp_stem : string)
    (request : RAGServiceServicer.IngestDocumentRequest) (w : World) :
  let temp_path :=
    temp_stem +:+ PyPath.splitext_ext (RAGServiceServicer.request_filename request) in
  let r := RAGServiceServicer.IngestDocument c temp_stem request w in
  (exists response, r.1 = Ret response) /\
  (temp_path ∈ readonly (fs w) ->
   r.1 = Ret (RAGServiceServicer.MkIngestDocumentResponse "error"
                (RAGServiceServicer.request_filename request) 0 "unknown"
                ("Permission denied: " +:+ temp_path)) /\
   store r.2 = store w /\ fs r.2 = fs w) /\
  (files (fs w) !! temp_path = None ->
   temp_path ∉ readonly (fs w) ->
   files (fs r.2) !! temp_path = None /\
   (forall p, p <> RAGEngine.index_path c -> p <> RAGEngine.docs_path c ->
      files (fs r.2) !! p = files (fs w) !! p) /\
   ((exists message,
       r.1 = Ret (RAGServiceServicer.MkIngestDocumentResponse "error"
                    (RAGServiceServicer.request_filename request) 0 "unknown" message) /\
       store r.2 = store w /\ fs r.2 = fs w) \/
    (exists chunks_created,
       r.1 = Ret (RAGServiceServicer.MkIngestDocumentResponse "success"
                    (PyPath.basename temp_path) chunks_created
                    (PyPath.lower (PyPath.suffix temp_path)) "") /\
       Z.of_nat (length (documents (store r.2)))
       = Z.of_nat (length (documents (store w))) + chunks_created))).
Proof.
  cbv zeta.
  set (temp_path :=
    temp_stem +:+ PyPath.splitext_ext (RAGServiceServicer.request_filename request)).
  set (w2 := MkWorld (store w)
               (MkFS (<[temp_path := RawFile (RAGServiceServicer.request_file_data request)]>
                        (files (fs w))) (readonly (fs w)))
               (logs w ++ [MkLog INFO ("Ingesting document: "
                             +:+ RAGServiceServicer.request_filename request)])).
  pose proof (ingest_document_run c temp_path w2) as Hrun. cbv zeta in Hrun.
  unfold RAGServiceServicer.IngestDocument, write_file, unlink. run_m.
  fold temp_path.
  destruct (bool_decide (temp_path ∈ readonly (fs w))) eqn:Hro.
  { apply bool_decide_eq_true_1 in Hro. cbn. split_and!; [by eauto|by destruct w|].
    by intros _ Hn. }
  apply bool_decide_eq_false_1 in Hro. cbn [fst snd store fs logs].
  fold w2.
  assert (Hfiles : forall w3,
            (RAGEngine.ingest_document c temp_path w2).2 = w3 ->
            is_Some (files (fs w3) !! temp_path) /\
            forall p, p <> RAGEngine.index_path c -> p <> RAGEngine.docs_path c ->
              files (fs w3) !! p = files (fs w2) !! p).
  { intros w3 <-.
    destruct Hrun as [(message & _ & _ & ->)|(d & ch & vs & Hrest)].
    - split; [|done]. cbn. rewrite lookup_insert_eq. by eexists.
    - destruct Hrest as (_ & _ & _ & _ & _ & _ & _ & _ & _ & _ & ->).
      assert (Hin : is_Some (files (fs w2) !! temp_path)).
      { cbn. rewrite lookup_insert_eq. by eexists. }
      repeat case_bool_decide.
      + done.
      + split.
        * rewrite lookup_insert_is_Some. destruct (decide (RAGEngine.index_path c = temp_path)); auto.
        * intros p Hp1 Hp2. by rewrite lookup_insert_ne.
      + split.
        * rewrite !lookup_insert_is_Some.
          destruct (decide (RAGEngine.docs_path c = temp_path)); [auto|].
          destruct (decide (RAGEngine.index_path c = temp_path)); auto.
        * intros p Hp1 Hp2. by rewrite !lookup_insert_ne. }
  destruct (RAGEngine.ingest_document c temp_path w2) as [[result|e] w3] eqn:Hing;
    cbn [fst snd] in *.
  2:{ by destruct Hrun as [(? & ? & _)|(? & ? & ? & _ & _ & _ & ? & _)]. }
  destruct (Hfiles w3 eq_refl) as [[f Hf] Hother]. rewrite Hf.
  cbn [fst snd store fs files]. split; [by eauto|]. split; [done|].
  intros Hfresh _. split_and!.
  - by rewrite lookup_delete_eq.
  - intros p Hp1 Hp2. destruct (decide (temp_path = p)) as [<-|Hne].
    + by rewrite lookup_delete_eq.
    + rewrite lookup_delete_ne, Hother by done. cbn. by rewrite lookup_insert_ne.
  - destruct Hrun as [(message & Hret & Hstore & Hfs)
                     |(d & ch & vs & Hpd & _ & _ & Hret & Hdocs & _)].
    + left. exists message. injection Hret as ->. split_and!; [done|done|].
      rewrite Hfs. cbn. rewrite delete_insert_id by done. by destruct (fs w).
    + right. exists (Z.of_nat (length ch)). injection Hret as ->.
      destruct (process_document_result _ _ _ _ Hpd) as [-> ->].
      split; [done|].
      rewrite Hdocs, length_app, length_imap. cbn. lia.
Qed.

Lemma IngestDocument_outcomes_witness :
  let r := RAGServiceServicer.IngestDocument Examples.collaborators "/tmp/tmpab12"
             (RAGServiceServicer.MkIngestDocumentRequest "a|bbb|ccccc" "Report.TXT")
             Examples.kb_fresh in
  files (fs r.2) !! "/tmp/tmpab12.TXT" = None /\
  r.1 = Ret (RAGServiceServicer.MkIngestDocumentResponse "success" "tmpab12.TXT" 3
               ".txt" "").
Proof.
  destruct (proj2 (proj2
              (IngestDocument_outcomes Examples.collaborators "/tmp/tmpab12"
                 (RAGServiceServicer.MkIngestDocumentRequest "a|bbb|ccccc" "Report.TXT")
                 Examples.kb_fresh)))
    as (Hgone & _ & _).
  - reflexivity.
  - vm_compute. intros H. discriminate H.
  - split; [exact Hgone|reflexivity].
Defined.

(** ** Paths: the extension of an upload and of its temporary file *)

Lemma append_cons (x : ascii) (a b : string) : String x a +:+ b = String x (a +:+ b).
Proof. reflexivity. Qed.

Lemma append_empty_l (b : string) : "" +:+ b = b.
Proof. reflexivity. Qed.

Ltac simpl_append := rewrite ?append_cons, ?append_empty_l; simpl.

Lemma length_append (a b : string) :
  String.length (a +:+ b) = (String.length a + String.length b)%nat.
Proof. induction a as [|x a IH]; simpl_append; [done|by rewrite IH]. Qed.

Lemma append_empty_r (a : string) : a +:+ "" = a.
Proof. induction a as [|x a IH]; simpl_append; [done|by rewrite IH]. Qed.

Lemma substring_all (b : string) : String.substring 0 (String.length b) b = b.
Proof. induction b as [|x b IH]; simpl; [done|by rewrite IH]. Qed.

Lemma substring_append_r (a b : string) :
  String.substring (String.length a) (String.length b) (a +:+ b) = b.
Proof. induction a as [|x a IH]; simpl_append; [apply substring_all|done]. Qed.

Lemma has_char_append (c : ascii) (a b : string) :
  PyPath.has_char c (a +:+ b) = PyPath.has_char c a || PyPath.has_char c b.
Proof. induction a as [|x a IH]; simpl_append; [done|by rewrite IH, orb_assoc]. Qed.

(** [rfind_from] finds nothing exactly when the character does not occur,
    and otherwise the position after which it no longer occurs. *)
Lemma rfind_from_spec (c : ascii) (s : string) :
  forall pos : nat,
    match PyPath.rfind_from c s pos with
    | None => PyPath.has_char c s = false
    | Some j =>
        exists a b, s = a +:+ String c b /\ j = (pos + String.length a)%nat /\
                    PyPath.has_char c b = false
    end.
Proof.
  induction s as [|x s IH]; intros pos; simpl; [done|].
  specialize (IH (S pos)).
  destruct (PyPath.rfind_from c s (S pos)) as [j|].
  - destruct IH as (a & b & -> & -> & Hb).
    exists (String x a), b. split_and!; [done|simpl; lia|done].
  - destruct (Ascii.eqb_spec x c) as [->|Hne].
    + exists EmptyString, s. split_and!; [done|simpl; lia|done].
    + done.
Qed.

Lemma rfind_from_absent (c : ascii) (s : string) (pos : nat) :
  PyPath.has_char c s = false -> PyPath.rfind_from c s pos = None.
Proof.
  intros Hs. pose proof (rfind_from_spec c s pos) as Hspec.
  destruct (PyPath.rfind_from c s pos) as [j|]; [|done].
  destruct Hspec as (a & b & -> & _ & _).
  rewrite has_char_append in Hs. simpl in Hs.
  by rewrite Ascii.eqb_refl, orb_true_r in Hs.
Qed.

Lemma rfind_from_last (c : ascii) (a b : string) :
  PyPath.has_char c b = false ->
  forall pos : nat,
    PyPath.rfind_from c (a +:+ String c b) pos = Some (pos + String.length a)%nat.
Proof.
  intros Hb. induction a as [|x a IH]; intros pos; simpl_append.
  - rewrite rfind_from_absent by done. rewrite Ascii.eqb_refl. f_equal. lia.
  - rewrite IH. f_equal. lia.
Qed.

(** A character occurring in [b] is found in [a ++ b] at or after the
    length of [a]. *)
Lemma rfind_from_append_r (c : ascii) (a b : string) :
  PyPath.has_char c b = true ->
  forall pos : nat,
    exists j, PyPath.rfind_from c (a +:+ b) pos = Some j /\
              (pos + String.length a <= j)%nat.
Proof.
  intros Hb. induction a as [|x a IH]; intros pos; simpl_append.
  - pose proof (rfind_from_spec c b pos) as Hspec.
    destruct (PyPath.rfind_from c b pos) as [j|]; [|congruence].
    destruct Hspec as (a' & b' & _ & -> & _). eexists. split; [done|lia].
  - destruct (IH (S pos)) as (j & -> & Hj). exists j. split; [done|lia].
Qed.

(** Two decompositions of a string at the same position agree. *)
Lemma append_inj_length (a a' b b' : string) :
  a +:+ b = a' +:+ b' -> String.length a = String.length a' -> a = a' /\ b = b'.
Proof.
  revert a'. induction a as [|x a IH]; intros [|y a']; simpl_append; try done.
  intros [= -> Heq] [= Hlen]. destruct (IH a' Heq Hlen) as [-> ->]. done.
Qed.

(** The extension [os.path.splitext] cuts off is empty, or a dot followed by
    characters among which there is neither a dot nor a slash. *)
Lemma splitext_ext_shape (p : string) :
  PyPath.splitext_ext p = EmptyString \/
  exists e, PyPath.splitext_ext p = String "." e /\
            PyPath.has_char "." e = false /\ PyPath.has_char "/" e = false.
Proof.
  unfold PyPath.splitext_ext, PyPath.rfind. cbv zeta.
  pose proof (rfind_from_spec "." p 0) as Hdot.
  destruct (PyPath.rfind_from "." p 0) as [i|].
  2:{ left. destruct (_ <? _) eqn:E; [|done].
      apply Z.ltb_lt in E. destruct (PyPath.rfind_from "/" p 0); lia. }
  destruct Hdot as (a & b & -> & -> & Hb).
  destruct (_ <? _) eqn:Hlt; [|by left].
  destruct (PyPath.has_non_dot _ _ _); [|by left].
  right. exists b. split_and!; [|done|].
  - unfold str_slice, slice_bound, py_len. rewrite length_append.
    match goal with
    | |- String.substring ?n ?m _ = _ =>
        replace n with (String.length a);
        [replace m with (String.length (String "." b))|]
    end.
    + apply substring_append_r.
    + simpl.
      repeat match goal with
             | |- context [?x <? ?y] => destruct (Z.ltb_spec x y)
             end; lia.
    + simpl.
      repeat match goal with
             | |- context [?x <? ?y] => destruct (Z.ltb_spec x y)
             end; lia.
  - destruct (PyPath.has_char "/" b) eqn:Hsep; [|done].
    destruct (rfind_from_append_r "/" a (String "." b)) with (pos := 0%nat)
      as (j & Hj & Hle); [done|].
    pose proof (rfind_from_spec "/" (a +:+ String "." b) 0) as Hspec.
    rewrite Hj in Hlt, Hspec. apply Z.ltb_lt in Hlt.
    destruct Hspec as (a' & b' & Heq & -> & _).
    assert (String.length a' <> String.length a); [|simpl in *; lia].
    intros Hlen. by destruct (append_inj_length _ _ _ _ Heq (eq_sym Hlen)).
Qed.

Lemma split_single (sep : ascii) (r : string) :
  PyPath.has_char sep r = false -> PyPath.split sep r = [r].
Proof.
  induction r as [|x r IH]; simpl; [done|].
  intros [Hx Hr]%orb_false_elim. rewrite Hx, IH; done.
Qed.

Lemma split_nonempty (sep : ascii) (s : string) : PyPath.split sep s <> [].
Proof.
  destruct s as [|x s]; simpl; [done|].
  destruct (Ascii.eqb x sep); [done|]. by destruct (PyPath.split sep s).
Qed.

(** [s.split(sep)]: what follows the last separator is the last part. *)
Lemma split_last_part (sep : ascii) (d r : string) :
  PyPath.has_char sep r = false ->
  PyPath.split sep (d +:+ String sep r) = PyPath.split sep d ++ [r].
Proof.
  intros Hr. induction d as [|x d IH]; simpl_append.
  - by rewrite Ascii.eqb_refl, split_single.
  - rewrite IH. destruct (Ascii.eqb x sep); [done|].
    pose proof (split_nonempty sep d). by destruct (PyPath.split sep d).
Qed.

(** X11. The temporary file of [IngestDocument] is named after the uploaded
    file's extension as [os.path.splitext] cuts it off, and
    [process_document] then reads the file type back with [Path.suffix]; the
    two agree. For a temporary name without dot or slash in any directory,
    the last component of the temporary path is that name followed by the
    upload's extension, and the suffix of the temporary path is the upload's
    extension, except that an upload ending in a dot (extension ["."])
    gives the empty suffix. *)
Theorem temp_file_keeps_extension (dir tmp_name upload : string) :
  tmp_name <> ""%string ->
  PyPath.has_char "/" tmp_name = false ->
  PyPath.has_char "." tmp_name = false ->
  let ext := PyPath.splitext_ext upload in
  let temp_path := dir +:+ "/" +:+ tmp_name +:+ ext in
  PyPath.basename temp_path = tmp_name +:+ ext /\
  PyPath.suffix temp_path = if String.eqb ext "." then ""%string else ext.
Proof.
  intros Hne Hslash Hdot. cbv zeta.
  set (ext := PyPath.splitext_ext upload).
  assert (Hext : PyPath.has_char "/" ext = false /\
                 (ext = ""%string \/
                  exists e, ext = String "." e /\ PyPath.has_char "." e = false)).
  { unfold ext.
    destruct (splitext_ext_shape upload) as [->|(e & -> & He1 & He2)]; [by auto|].
    split; [done|]. right. by exists e. }
  destruct Hext as [Hext_slash Hshape]. clearbody ext.
  change (dir +:+ "/" +:+ tmp_name +:+ ext)
    with (dir +:+ String "/" (tmp_name +:+ ext)).
  assert (Hr : PyPath.has_char "/" (tmp_name +:+ ext) = false).
  { by rewrite has_char_append, Hslash, Hext_slash. }
  split.
  { unfold PyPath.basename. by rewrite split_last_part, last_snoc. }
  assert (Hname : PyPath.name (dir +:+ String "/" (tmp_name +:+ ext)) = tmp_name +:+ ext).
  { unfold PyPath.name. rewrite split_last_part, filter_app by done.
    rewrite (filter_cons_True _ (tmp_name +:+ ext)), filter_nil, last_snoc; [done|].
    destruct tmp_name as [|x t]; [done|]. rewrite append_cons. split; [done|].
    simpl in Hdot. apply orb_false_elim in Hdot as [Hx _].
    intros [= -> _]. done. }
  unfold PyPath.suffix. cbv zeta. rewrite Hname.
  destruct Hshape as [->|(e & -> & He)].
  - rewrite append_empty_r, rfind_from_absent by done. done.
  - rewrite rfind_from_last by done. rewrite length_append. simpl.
    assert (0 < String.length tmp_name)%nat by (destruct tmp_name; [done|simpl; lia]).
    destruct e as [|y e].
    + simpl.
      replace (String.length tmp_name <? String.length tmp_name + 1 - 1)%nat
        with false by (symmetry; apply Nat.ltb_ge; lia).
      by rewrite andb_false_r.
    + replace (0 <? String.length tmp_name)%nat with true
        by (symmetry; apply Nat.ltb_lt; lia).
      replace (String.length tmp_name <? _)%nat with true
        by (symmetry; apply Nat.ltb_lt; simpl; lia).
      replace (String.length tmp_name + S (String.length (String y e))
               - String.length tmp_name)%nat
        with (String.length (String "." (String y e))) by (simpl; lia).
      rewrite substring_append_r. simpl. by destruct y as [[] [] [] [] [] [] [] []].
Qed.

Lemma temp_file_keeps_extension_witness :
  PyPath.basename ("/tmp" +:+ "/" +:+ "tmpab12" +:+ PyPath.splitext_ext "Report.TXT")
    = "tmpab12.TXT"%string /\
  PyPath.suffix ("/tmp" +:+ "/" +:+ "tmpab12" +:+ PyPath.splitext_ext "Report.TXT")
    = ".TXT"%string.
Proof.
  apply (temp_file_keeps_extension "/tmp" "tmpab12" "Report.TXT").
  - discriminate.
  - reflexivity.
  - reflexivity.
Defined.

(** ** The chunker: how many chunks, and what they add up to *)

Lemma substring_empty_len (s : string) (n : nat) : String.substring n 0 s = ""%string.
Proof. revert n. induction s as [|c s IH]; intros [|n]; simpl; auto. Qed.

Lemma substring_of_empty (n m : nat) : String.substring n m "" = ""%string.
Proof. by destruct n, m. Qed.

(** A slice of a slice is a slice. *)
Lemma substring_substring (s : string) :
  forall a l n m : nat,
    String.substring n m (String.substring a l s)
    = String.substring (a + n) (Nat.min m (l - n)) s.
Proof.
  induction s as [|c s IH]; intros a l n m.
  - by rewrite !substring_of_empty.
  - destruct a as [|a]; [|apply IH].
    destruct l as [|l].
    + simpl String.substring at 2. rewrite substring_of_empty.
      replace (Nat.min m (0 - n)) with 0%nat by lia.
      by rewrite substring_empty_len.
    + destruct n as [|n].
      * destruct m as [|m]; [done|]. simpl. f_equal.
        rewrite (IH 0%nat l 0%nat m). simpl. do 2 f_equal. lia.
      * simpl. apply (IH 0%nat l n m).
Qed.

(** Two adjacent slices make one. *)
Lemma substring_adjacent (s : string) :
  forall a l1 l2 : nat,
    String.substring a l1 s +:+ String.substring (a + l1) l2 s
    = String.substring a (l1 + l2) s.
Proof.
  induction s as [|c s IH]; intros a l1 l2.
  - by rewrite !substring_of_empty.
  - destruct a as [|a]; [|apply IH].
    destruct l1 as [|l1]; [done|].
    simpl. rewrite append_cons. f_equal. apply (IH 0%nat l1 l2).
Qed.

Lemma str_slice_nonneg (s : string) (a b : Z) :
  0 <= a -> 0 <= b ->
  str_slice s a b
  = String.substring (Z.to_nat (Z.min a (py_len s)))
      (Z.to_nat (Z.min b (py_len s)) - Z.to_nat (Z.min a (py_len s))) s.
Proof.
  intros Ha Hb. unfold str_slice, slice_bound.
  destruct (Z.ltb_spec a 0); [lia|]. destruct (Z.ltb_spec b 0); [lia|].
  f_equal. unfold py_len. lia.
Qed.

(** [s[a:b] + s[b:c] == s[a:c]]. *)
Lemma str_slice_adjacent (s : string) (a b c : Z) :
  0 <= a <= b -> b <= c ->
  str_slice s a b +:+ str_slice s b c = str_slice s a c.
Proof.
  intros Hab Hbc. rewrite !str_slice_nonneg by lia.
  set (a' := Z.to_nat (Z.min a (py_len s))).
  set (b' := Z.to_nat (Z.min b (py_len s))).
  set (c' := Z.to_nat (Z.min c (py_len s))).
  assert (a' <= b' <= c')%nat by (unfold a', b', c', py_len; lia).
  replace b' with (a' + (b' - a'))%nat at 2 by lia.
  rewrite substring_adjacent. f_equal. lia.
Qed.

(** [s[a:b][n:] == s[a+n:b]]. *)
Lemma str_slice_drop (s : string) (a b n : Z) :
  0 <= a <= b -> 0 <= n ->
  str_slice (str_slice s a b) n (py_len (str_slice s a b)) = str_slice s (a + n) b.
Proof.
  intros Hab Hn.
  assert (Hlen : 0 <= py_len (str_slice s a b)) by (unfold py_len; lia).
  rewrite (str_slice_nonneg (str_slice s a b)) by lia.
  rewrite py_len_str_slice by lia.
  rewrite !(str_slice_nonneg s) by lia.
  rewrite substring_substring.
  assert (0 <= py_len s) by (unfold py_len; lia).
  clear Hlen. set (len := py_len s) in *. clearbody len.
  destruct (Z.le_gt_cases (a + n) (Z.min b len)).
  - f_equal; [lia|].
    rewrite Z.min_id, Nat.min_l by lia. lia.
  - match goal with
    | |- String.substring _ ?l _ = String.substring _ ?l' _ =>
        replace l with 0%nat by lia; replace l' with 0%nat by lia
    end.
    by rewrite !substring_empty_len.
Qed.

(** [s[0:b] == s] once [b] reaches the length. *)
Lemma str_slice_whole (s : string) (b : Z) : py_len s <= b -> str_slice s 0 b = s.
Proof.
  intros Hb. assert (0 <= py_len s) by (unfold py_len; lia).
  rewrite str_slice_nonneg by lia.
  replace (Z.to_nat (Z.min 0 (py_len s))) with 0%nat by lia.
  replace (_ - 0)%nat with (String.length s) by (unfold py_len in *; lia).
  apply substring_all.
Qed.

Lemma append_assoc (a b c : string) : (a +:+ b) +:+ c = a +:+ (b +:+ c).
Proof. induction a as [|x a IH]; simpl_append; [done|by rewrite IH]. Qed.

(** [''.join(x :: xs)]. *)
Lemma concat_empty_cons (x : string) (xs : list string) :
  String.concat "" (x :: xs) = x +:+ String.concat "" xs.
Proof. destruct xs; simpl; [by rewrite append_empty_r|done]. Qed.

(** With a positive step the loop ends after [num_chunks] rounds, having cut
    the windows at the multiples of the step. *)
Lemma chunk_text_run (text : string) (chunk_size overlap : Z) (fuel : nat) :
  0 < chunk_size - overlap ->
  (Chunker.num_chunks text chunk_size overlap < fuel)%nat ->
  Chunker.chunk_text_loop fuel text chunk_size overlap 0 []
  = Some (map (fun i => str_slice text (Z.of_nat i * (chunk_size - overlap))
                          (Z.of_nat i * (chunk_size - overlap) + chunk_size))
            (seq 0 (Chunker.num_chunks text chunk_size overlap))).
Proof.
  intros Hstep Hfuel.
  pose proof (num_chunks_bounds text chunk_size overlap Hstep) as Hn. cbv zeta in Hn.
  rewrite (chunk_text_loop_unroll text chunk_size overlap
             (Chunker.num_chunks text chunk_size overlap)).
  - done.
  - intros i Hi. nia.
  - lia.
  - done.
Qed.

(** X12. For [0 <= overlap < chunk_size], [chunk_text] returns after at most
    as many rounds as there are chunks, and the number of chunks is the
    text length divided by [chunk_size - overlap], rounded up. The empty
    text gives no chunk; a non-empty text no longer than
    [chunk_size - overlap] gives the text itself as the only chunk. *)
Theorem chunk_text_count (text : string) (chunk_size overlap : Z) (fuel : nat) :
  0 <= overlap < chunk_size ->
  (Chunker.num_chunks text chunk_size overlap < fuel)%nat ->
  exists chunks,
    fst <$> Chunker.chunk_text fuel text chunk_size overlap = Some chunks /\
    Z.of_nat (length chunks)
    = (py_len text + (chunk_size - overlap) - 1) / (chunk_size - overlap) /\
    (text = ""%string -> chunks = []) /\
    (text <> ""%string -> py_len text <= chunk_size - overlap -> chunks = [text]).
Proof.
  intros Hov Hfuel.
  exists (map (fun i => str_slice text (Z.of_nat i * (chunk_size - overlap))
                          (Z.of_nat i * (chunk_size - overlap) + chunk_size))
            (seq 0 (Chunker.num_chunks text chunk_size overlap))).
  split.
  { unfold Chunker.chunk_text. by rewrite chunk_text_run by (done || lia). }
  assert (Hlen : 0 <= py_len text) by (unfold py_len; lia).
  assert (Hq : 0 <= (py_len text + (chunk_size - overlap) - 1) / (chunk_size - overlap))
    by (apply Z.div_pos; lia).
  rewrite length_map, length_seq. unfold Chunker.num_chunks. split_and!.
  - by rewrite Z2Nat.id.
  - intros ->. change (py_len "") with 0. by rewrite Z.div_small by lia.
  - intros Hne Hshort.
    assert (0 < py_len text) by (destruct text; [done|unfold py_len; simpl; lia]).
    replace ((py_len text + (chunk_size - overlap) - 1) / (chunk_size - overlap))
      with 1.
    + simpl. f_equal. apply str_slice_whole. lia.
    + apply (Z.div_unique_pos _ _ 1 (py_len text - 1)); lia.
Qed.

Lemma chunk_text_count_witness :
  exists chunks,
    fst <$> Chunker.chunk_text 5 Examples.long_text 1000 200 = Some chunks /\
    Z.of_nat (length chunks) = 4.
Proof.
  destruct (chunk_text_count Examples.long_text 1000 200 5)
    as (chunks & Hrun & Hcount & _).
  - lia.
  - vm_compute. lia.
  - exists chunks. split; [exact Hrun|exact Hcount].
Defined.

(** The chunks after the first, each without its first [overlap]
    characters, continue the text from where the window before ended. *)
Lemma trimmed_chunks_telescope (text : string) (chunk_size overlap : Z) (m : nat) :
  0 <= overlap < chunk_size ->
  forall j : nat,
    str_slice text 0 (Z.of_nat j * (chunk_size - overlap) + overlap)
    +:+ String.concat ""
          (map (fun i => str_slice text (Z.of_nat i * (chunk_size - overlap) + overlap)
                           (Z.of_nat i * (chunk_size - overlap) + chunk_size))
             (seq j m))
    = str_slice text 0 (Z.of_nat (j + m) * (chunk_size - overlap) + overlap).
Proof.
  intros Hov. induction m as [|m IH]; intros j.
  - simpl. rewrite append_empty_r. do 2 f_equal. lia.
  - cbn [seq map]. rewrite concat_empty_cons, <- append_assoc.
    rewrite str_slice_adjacent by nia.
    replace (Z.of_nat j * (chunk_size - overlap) + chunk_size)
      with (Z.of_nat (S j) * (chunk_size - overlap) + overlap) by lia.
    rewrite IH. do 2 f_equal. lia.
Qed.

Lemma imap_map_seq {A B} (f : nat -> A -> B) (g : nat -> A) (n : nat) :
  imap f (map g (seq 0 n)) = map (fun i => f i (g i)) (seq 0 n).
Proof.
  apply list_eq. intros i.
  rewrite list_lookup_imap, !list_lookup_fmap.
  destruct (decide (i < n)%nat).
  - by rewrite lookup_seq_lt.
  - by rewrite lookup_seq_ge by lia.
Qed.

(** X13. Nothing is lost and nothing but the overlaps is repeated: for
    [0 <= overlap < chunk_size], the first chunk followed by every later
    chunk without its first [overlap] characters is the text again. *)
Theorem chunk_text_reassembles (text : string) (chunk_size overlap : Z) (fuel : nat) :
  0 <= overlap < chunk_size ->
  (Chunker.num_chunks text chunk_size overlap < fuel)%nat ->
  exists chunks,
    fst <$> Chunker.chunk_text fuel text chunk_size overlap = Some chunks /\
    String.concat ""
      (imap (fun i chunk => if decide (i = 0%nat) then chunk
                            else str_slice chunk overlap (py_len chunk))
         chunks)
    = text.
Proof.
  intros Hov Hfuel.
  exists (map (fun i => str_slice text (Z.of_nat i * (chunk_size - overlap))
                          (Z.of_nat i * (chunk_size - overlap) + chunk_size))
            (seq 0 (Chunker.num_chunks text chunk_size overlap))).
  split.
  { unfold Chunker.chunk_text. by rewrite chunk_text_run by (done || lia). }
  pose proof (num_chunks_bounds text chunk_size overlap ltac:(lia)) as Hn.
  cbv zeta in Hn.
  assert (Hlen : 0 <= py_len text) by (unfold py_len; lia).
  rewrite imap_map_seq.
  destruct (Chunker.num_chunks text chunk_size overlap) as [|n].
  - simpl. destruct text; [done|]. unfold py_len in Hn. simpl in Hn. lia.
  - cbn [seq map]. rewrite concat_empty_cons, decide_True by done.
    rewrite (map_ext_in _ (fun i =>
               str_slice text (Z.of_nat i * (chunk_size - overlap) + overlap)
                 (Z.of_nat i * (chunk_size - overlap) + chunk_size))).
    2:{ intros i [Hi _]%in_seq. rewrite decide_False by lia.
        rewrite str_slice_drop by nia. done. }
    replace (str_slice text (Z.of_nat 0 * (chunk_size - overlap))
               (Z.of_nat 0 * (chunk_size - overlap) + chunk_size))
      with (str_slice text 0 (Z.of_nat 1 * (chunk_size - overlap) + overlap))
      by (f_equal; lia).
    rewrite trimmed_chunks_telescope by done.
    apply str_slice_whole. lia.
Qed.

Lemma chunk_text_reassembles_witness :
  exists chunks,
    fst <$> Chunker.chunk_text 5 "abcdefghij" 4 1 = Some chunks /\
    String.concat ""
      (imap (fun i chunk => if decide (i = 0%nat) then chunk
                            else str_slice chunk 1 (py_len chunk))
         chunks)
    = "abcdefghij"%string.
Proof.
  apply (chunk_text_reassembles "abcdefghij" 4 1 5).
  - lia.
  - vm_compute. lia.
Defined.

(** ** Restart after an ingestion *)

(** X14. What was ingested survives a restart. After a successful
    [ingest_document] with both artifact paths writable, an engine
    constructed over the resulting files holds exactly the index and the
    records of the engine that ingested, and answers with the same result
    every query that its model embeds as the old model did. *)
Theorem ingest_survives_restart (c : Collaborators) (file_path : string) (w : World)
    (filename : string) (chunks_created : Z) (file_type : string)
    (name : string) (model : SentenceTransformer) :
  (RAGEngine.ingest_document c file_path w).1
    = Ret (RAGEngine.IngestSuccess filename chunks_created file_type) ->
  RAGEngine.index_path c ∉ readonly (fs w) ->
  RAGEngine.docs_path c ∉ readonly (fs w) ->
  let after := (RAGEngine.ingest_document c file_path w).2 in
  let restarted := (RAGEngine.__init__ c name model after).2 in
  index (store restarted) = index (store after) /\
  documents (store restarted) = documents (store after) /\
  forall (query : string) (k : Z),
    embed model query = embed (embedding_model (store after)) query ->
    (VectorStore.search query k restarted).1 = (VectorStore.search query k after).1.
Proof.
  intros Hok Hi Hd. cbv zeta.
  set (after := (RAGEngine.ingest_document c file_path w).2).
  destruct (ingest_document_run c file_path w) as
    [(message & Herr & _)|(_ & _ & _ & _ & _ & _ & _ & _ & _ & _ & _ & _ & _ & Hfiles)];
    [congruence|].
  cbv zeta in Hfiles. fold after in Hfiles.
  rewrite (bool_decide_eq_false_2 _ Hi), (bool_decide_eq_false_2 _ Hd) in Hfiles.
  set (w' := MkWorld (VectorStore.new name model) (fs after)
               (logs after ++ VectorStore.init_logs (VectorStore.new name model))).
  pose proof (load_run (RAGEngine.index_path c) (RAGEngine.docs_path c) w') as Hload.
  cbv zeta in Hload. change (fs w') with (fs after) in Hload.
  rewrite Hfiles in Hload.
  rewrite lookup_insert_ne in Hload by (by apply not_eq_sym, engine_paths_distinct).
  rewrite !lookup_insert_eq in Hload. destruct Hload as (Hret & Hstore & _).
  assert (Hrestart :
    store (RAGEngine.__init__ c name model after).2
    = store (VectorStore.load (RAGEngine.index_path c) (RAGEngine.docs_path c) w').2).
  { unfold RAGEngine.__init__, RAGEngine._load_vector_store, VectorStore.__init__.
    run_m. fold w'.
    by destruct (VectorStore.load _ _ w') as [[[]|e] w'']. }
  rewrite Hrestart, Hstore. split_and!; [done|done|].
  intros query k Hq. apply search_depends; rewrite Hrestart, Hstore; done.
Qed.

Lemma ingest_survives_restart_witness :
  let restarted :=
    (RAGEngine.__init__ Examples.collaborators "len" Examples.len_model
       Examples.ingested).2 in
  index (store restarted) = index (store Examples.ingested) /\
  documents (store restarted) = documents (store Examples.ingested) /\
  (VectorStore.search "bb" 2 restarted).1
  = (VectorStore.search "bb" 2 Examples.ingested).1.
Proof.
  destruct (ingest_survives_restart Examples.collaborators "/kb/doc.txt"
              Examples.kb_fresh "doc.txt" 3 ".txt" "len" Examples.len_model)
    as (Hix & Hdocs & Hsearch).
  - reflexivity.
  - vm_compute. intros H. discriminate H.
  - vm_compute. intros H. discriminate H.
  - split_and!; [exact Hix|exact Hdocs|].
    apply (Hsearch "bb"%string 2). reflexivity.
Defined.

(** ** Adding, then searching *)

Lemma l2sqr_nonneg (x : Faiss.vec) : forall y, 0 <= Faiss.l2sqr x y.
Proof.
  induction x as [|a x IH]; intros [|b y]; simpl; try lia.
  specialize (IH y). pose proof (Z.square_nonneg (a - b)). lia.
Qed.

Lemma l2sqr_refl (x : Faiss.vec) : Faiss.l2sqr x x = 0.
Proof. induction x as [|a x IH]; simpl; [done|]. rewrite IH, Z.sub_diag. lia. Qed.

Lemma has_width_elem (dim : Z) (vs : list Faiss.vec) (v : Faiss.vec) :
  Faiss.has_width dim vs = true -> v ∈ vs -> Z.of_nat (length v) = dim.
Proof.
  unfold Faiss.has_width. rewrite forallb_forall. intros Hall Hv.
  apply Z.eqb_eq, Hall. by apply list_elem_of_In.
Qed.

Lemma encode_elem (model : SentenceTransformer) (texts : list string)
    (vs : list Faiss.vec) (t : string) :
  encode model texts = Ret vs -> t ∈ texts ->
  exists v, v ∈ vs /\ embed model t = Ret v.
Proof.
  intros Henc Ht. apply encode_embed in Henc.
  apply list_elem_of_lookup in Ht as [i Hi].
  assert (H : map (embed model) texts !! i = map Ret vs !! i) by by rewrite Henc.
  rewrite !list_lookup_fmap, Hi in H. simpl in H.
  destruct (vs !! i) as [v|] eqn:Hv; [|done].
  exists v. split; [by eapply list_elem_of_lookup_2|]. by injection H.
Qed.

(** X15. A text that was just added is found. On a row-aligned store, after
    an [add_documents] that returned normally, a search for any of the
    added texts with a positive [k] returns normally and its first hit has
    distance 0: it is a record whose text embeds at distance 0 from the
    embedding of the text searched for. *)
Theorem added_text_is_found (w : World) (texts : list string)
    (metadata : option (list (gmap string PyVal))) (t : string) (k : Z) :
  VectorStore.aligned (store w) ->
  (VectorStore.add_documents texts metadata w).1 = Ret tt ->
  t ∈ texts ->
  0 < k ->
  let added := (VectorStore.add_documents texts metadata w).2 in
  exists hit rest v u,
    (VectorStore.search t k added).1 = Ret (hit :: rest) /\
    hit.1.2 = 0 /\
    embed (embedding_model (store added)) t = Ret v /\
    embed (embedding_model (store added)) hit.1.1 = Ret u /\
    Faiss.l2sqr v u = 0.
Proof.
  intros Hal Hok Ht Hk. cbv zeta.
  pose proof (add_documents_aligned texts metadata w Hal) as Hal'.
  pose proof (aligned_length _ Hal') as Hlen.
  pose proof (add_documents_run texts metadata w) as Hrun. cbv zeta in Hrun.
  destruct texts as [|t0 ts]; [by apply elem_of_nil in Ht|].
  destruct (encode (embedding_model (store w)) (t0 :: ts)) as [vs|e] eqn:Henc.
  2:{ rewrite Hrun in Hok. done. }
  destruct (Faiss.has_width (Faiss.d (index (store w))) vs) eqn:Hwidth.
  2:{ rewrite Hrun in Hok. done. }
  destruct Hrun as (_ & Hix & Hdocs & Hmodel & _).
  set (added := (VectorStore.add_documents (t0 :: ts) metadata w).2) in *.
  destruct (encode_elem _ _ _ _ Henc Ht) as (v & Hvin & Hv).
  rewrite <- Hmodel in Hv.
  assert (Hvw : Z.of_nat (length v) = Faiss.d (index (store added))).
  { rewrite Hix. simpl. by eapply has_width_elem. }
  assert (Hne : documents (store added) <> []).
  { rewrite Hdocs. intros Hnil. apply (f_equal length) in Hnil.
    rewrite length_app, length_imap in Hnil. simpl in Hnil. lia. }
  pose proof (search_run added t k v Hv Hvw Hk Hne Hlen) as Hsearch.
  pose proof (knn_length (Faiss.xb (index (store added))) v (Z.to_nat k)) as Hklen.
  destruct (Faiss.knn (Faiss.xb (index (store added))) v (Z.to_nat k))
    as [|h res] eqn:Hknn; [simpl in Hklen; lia|].
  assert (Hnear : h.1 <= 0).
  { rewrite <- (l2sqr_refl v). eapply knn_head_nearest; [exact Hknn|].
    rewrite Hix. simpl. apply elem_of_app. by right. }
  assert (Hin : h ∈ Faiss.knn (Faiss.xb (index (store added))) v (Z.to_nat k))
    by (rewrite Hknn; apply list_elem_of_here).
  apply knn_elem in Hin as [->|(_ & i & x & Hx & ->)].
  { simpl in Hnear. unfold Faiss.FLT_MAX in Hnear. lia. }
  pose proof (l2sqr_nonneg v x) as Hpos. simpl in Hnear.
  destruct (lookup_lt_is_Some_2 (documents (store added)) i) as [doc Hdoc].
  { rewrite Hlen. by eapply lookup_lt_Some. }
  cbn [map] in Hsearch. unfold VectorStore.hit_of at 1 in Hsearch.
  cbn [fst snd] in Hsearch. rewrite (list_getitem_nat _ _ _ Hdoc) in Hsearch.
  eexists _, _, v, x. split; [exact Hsearch|]. cbn [fst snd].
  split_and!; [lia|done| |lia].
  by eapply aligned_lookup.
Qed.

Lemma added_text_is_found_witness :
  exists hit rest v u,
    (VectorStore.search "bbb" 2 Examples.two_rows).1 = Ret (hit :: rest) /\
    hit.1.2 = 0 /\
    embed (embedding_model (store Examples.two_rows)) "bbb" = Ret v /\
    embed (embedding_model (store Examples.two_rows)) hit.1.1 = Ret u /\
    Faiss.l2sqr v u = 0.
Proof.
  apply (added_text_is_found Examples.fresh ["a"; "bbb"]%string None "bbb" 2).
  - reflexivity.
  - reflexivity.
  - apply elem_of_cons. right. apply list_elem_of_here.
  - lia.
Defined.

(** ** What [search] never returns *)

(** The loop of [search] only ever appends stored records, at most one per
    label. *)
Lemma collect_results_sound (docs : list Doc) (distances0 : list Z) :
  forall (indices0 : list Z) (i : nat) (results res : list VectorStore.Hit),
    VectorStore.collect_results docs distances0 i indices0 results = Ret res ->
    exists new,
      res = results ++ new /\
      (length new <= length indices0)%nat /\
      Forall (fun hit => exists doc, doc ∈ docs /\
                           hit.1.1 = text doc /\ hit.2 = metadata doc) new.
Proof.
  induction indices0 as [|idx rest IH]; intros i results res; simpl.
  - intros [= <-]. exists []. by rewrite app_nil_r.
  - destruct (idx <? Z.of_nat (length docs)).
    + destruct (list_getitem docs idx) as [doc|] eqn:Hdoc; [|done].
      destruct (list_getitem distances0 (Z.of_nat i)) as [dist|]; [|done].
      intros (new & -> & Hlen & Hall)%IH.
      exists ((text doc, dist, metadata doc) :: new).
      rewrite <- app_assoc. split_and!; [done|simpl; lia|].
      constructor; [|done]. exists doc. split; [by eapply list_getitem_elem|done].
    + intros (new & -> & Hlen & Hall)%IH. exists new. split_and!; [done|lia|done].
Qed.

(** X16. Whatever the state of the store (aligned or not) and whatever the
    arguments, when [search] returns it returns at most [k] hits, and the
    text and metadata of each are those of a stored record; on an index
    without rows it returns no hit. *)
Theorem search_never_invents (w : World) (query : string) (k : Z)
    (hits : list VectorStore.Hit) :
  (VectorStore.search query k w).1 = Ret hits ->
  Z.of_nat (length hits) <= Z.max 0 k /\
  Forall (fun hit => exists doc, doc ∈ documents (store w) /\
                       hit.1.1 = text doc /\ hit.2 = metadata doc) hits /\
  (Faiss.ntotal (index (store w)) = 0 -> hits = []).
Proof.
  unfold VectorStore.search. run_m.
  destruct (Faiss.ntotal (index (store w)) =? 0) eqn:E.
  { intros [= <-]. split_and!; [simpl; lia|done|done]. }
  apply Z.eqb_neq in E. cbn [encode].
  destruct (embed (embedding_model (store w)) query) as [v|]; [|done].
  unfold Faiss.search.
  destruct (negb (Faiss.has_width _ _)); [done|].
  destruct (0 <? k) eqn:Hk; [|done]. apply Z.ltb_lt in Hk.
  cbn -[Faiss.knn VectorStore.collect_results pretty].
  change (Z.to_nat 0) with 0%nat. unfold lookup, list_lookup.
  cbn -[Faiss.knn VectorStore.collect_results pretty].
  destruct (VectorStore.collect_results _ _ _ _ _) as [res|] eqn:Hres; [|done].
  cbn [fst]. intros [= <-].
  apply collect_results_sound in Hres as (new & -> & Hlen & Hall).
  rewrite length_map, knn_length in Hlen. cbn [app].
  split_and!; [lia|done|done].
Qed.

Lemma search_never_invents_witness :
  Z.of_nat (length [("bbb"%string, 0, (∅ : gmap string PyVal))]) <= Z.max 0 1 /\
  Forall (fun hit => exists doc, doc ∈ documents (store Examples.two_rows) /\
                       hit.1.1 = text doc /\ hit.2 = metadata doc)
    [("bbb"%string, 0, (∅ : gmap string PyVal))].
Proof.
  destruct (search_never_invents Examples.two_rows "bbb" 1
              [("bbb"%string, 0, (∅ : gmap string PyVal))])
    as (Hcount & Hall & _).
  - reflexivity.
  - split; [exact Hcount|exact Hall].
Defined.

(** ** Extraction *)

Lemma read_only_open_file (path : string) : read_only (open_file path).
Proof. intros w. unfold open_file. by destruct (files (fs w) !! path). Qed.

#[local] Hint Resolve read_only_open_file : read_only.


